(** * buttplug-js: the test device protocol and the in-browser client

    A shallow embedding of
    - [TestDeviceProtocol] (the capability-driven handlers of the test
      device: stop, vibrate, rotate, linear and the Fleshlight Launch
      translation), and
    - [ButtplugBrowserClient] (connect / send / disconnect against an
      in-process server),
    followed by the properties of both that the specification states.

    JavaScript numbers are modelled by [number] below: NaN, the two
    infinities and the finite values, the finite values being exact
    rationals.  Every operation keeps the IEEE-754 / ECMAScript treatment
    of NaN, of the infinities and of division by zero; the rounding of
    each finite result to binary64 and the sign of zero are not
    represented.  A finite result can therefore differ from the engine's
    in its last bit, and a difference of two products can be zero in the
    engine and not here.  The properties of the linear translation are
    stated accordingly: on bounds, orderings, NaN and the infinities,
    which rounding to nearest keeps, and at inputs whose products are
    exact; none of them fixes a rounded value. *)

From Stdlib Require Import ZArith QArith Qround Qabs Lqa Lia.
From stdpp Require Import base decidable countable gmap strings list.

Local Open Scope Z_scope.

(** ** JavaScript numbers *)

Module Number.

Inductive number : Type :=
| NaN
| PInf
| NInf
| Fin (q : Q).

(** The sign of a number as a comparison with zero; [Eq] for zero and
    for NaN (the callers below treat NaN before they ask). *)
Definition sign (x : number) : comparison :=
  match x with
  | NaN => Eq
  | PInf => Gt
  | NInf => Lt
  | Fin q => (q ?= 0)%Q
  end.

Definition mul_sign (a b : comparison) : comparison :=
  match a, b with
  | Eq, _ | _, Eq => Eq
  | Gt, Gt | Lt, Lt => Gt
  | _, _ => Lt
  end.

(** An infinity of the given sign; the sign [Eq] stands for the
    undefined forms (infinity times zero, zero over zero), which are NaN. *)
Definition signed_inf (c : comparison) : number :=
  match c with
  | Gt => PInf
  | Lt => NInf
  | Eq => NaN
  end.

Definition isNaN (x : number) : bool :=
  match x with NaN => true | _ => false end.

Definition isFinite (x : number) : bool :=
  match x with Fin _ => true | _ => false end.

(** [x * y]; exact on finite operands. *)
Definition mul (x y : number) : number :=
  match x, y with
  | NaN, _ | _, NaN => NaN
  | Fin a, Fin b => Fin (a * b)
  | _, _ => signed_inf (mul_sign (sign x) (sign y))
  end.

(** [x / y]; exact on finite operands.  A zero divisor is the positive
    zero: in the code below the divisors are a [Math.abs] result and the
    literals 99 and 2. *)
Definition div (x y : number) : number :=
  match x, y with
  | NaN, _ | _, NaN => NaN
  | Fin a, Fin b =>
      if Qeq_bool b 0 then signed_inf (sign x) else Fin (a / b)
  | Fin _, _ => Fin 0
  | _, Fin b =>
      signed_inf (mul_sign (sign x) (if Qeq_bool b 0 then Gt else sign y))
  | _, _ => NaN
  end.

(** [x + y]; exact on finite operands. *)
Definition add (x y : number) : number :=
  match x, y with
  | NaN, _ | _, NaN => NaN
  | Fin a, Fin b => Fin (a + b)
  | PInf, NInf | NInf, PInf => NaN
  | PInf, _ | _, PInf => PInf
  | NInf, _ | _, NInf => NInf
  end.

(** [x - y]; exact on finite operands. *)
Definition sub (x y : number) : number :=
  match x, y with
  | NaN, _ | _, NaN => NaN
  | Fin a, Fin b => Fin (a - b)
  | PInf, PInf | NInf, NInf => NaN
  | PInf, _ | _, NInf => PInf
  | NInf, _ | _, PInf => NInf
  end.

(** [x < y] and [x <= y]: false as soon as one side is NaN. *)
Definition ltb (x y : number) : bool :=
  match x, y with
  | NaN, _ | _, NaN => false
  | Fin a, Fin b => negb (Qle_bool b a)
  | NInf, NInf | PInf, _ | _, NInf => false
  | _, _ => true
  end.

Definition leb (x y : number) : bool :=
  match x, y with
  | NaN, _ | _, NaN => false
  | Fin a, Fin b => Qle_bool a b
  | NInf, _ | _, PInf => true
  | _, _ => false
  end.

Definition Math_abs (x : number) : number :=
  match x with
  | NaN => NaN
  | PInf | NInf => PInf
  | Fin q => Fin (Qabs q)
  end.

Definition Math_floor (x : number) : number :=
  match x with
  | Fin q => Fin (inject_Z (Qfloor q))
  | _ => x
  end.

(** [Math.max] and [Math.min] return NaN when an argument is NaN. *)
Definition Math_max (x y : number) : number :=
  match x, y with
  | NaN, _ | _, NaN => NaN
  | PInf, _ | _, PInf => PInf
  | NInf, _ => y
  | _, NInf => x
  | Fin a, Fin b => if Qle_bool a b then y else x
  end.

Definition Math_min (x y : number) : number :=
  match x, y with
  | NaN, _ | _, NaN => NaN
  | NInf, _ | _, NInf => NInf
  | PInf, _ => y
  | _, PInf => x
  | Fin a, Fin b => if Qle_bool a b then x else y
  end.

Definition is_integer (q : Q) : bool :=
  Pos.eqb (Qden (Qred q)) 1.

Definition is_odd_integer (q : Q) : bool :=
  is_integer q && Z.odd (Qnum (Qred q)).

(** [Math.pow], by the cases of ECMAScript's Number::exponentiate.  The
    last case of that table, "an implementation-approximated value" of
    the power of a finite non-zero base to a finite non-zero exponent,
    is the parameter [pow_approx]. *)
Definition Math_pow (pow_approx : Q -> Q -> number)
    (base exponent : number) : number :=
  match exponent with
  | NaN => NaN
  | Fin e =>
      if Qeq_bool e 0 then Fin 1
      else
        match base with
        | NaN => NaN
        | PInf => if Qle_bool e 0 then Fin 0 else PInf
        | NInf =>
            if Qle_bool e 0 then Fin 0
            else if is_odd_integer e then NInf else PInf
        | Fin b =>
            match (b ?= 0)%Q with
            | Eq => if Qle_bool e 0 then PInf else Fin 0
            | Lt => if is_integer e then pow_approx b e else NaN
            | Gt => pow_approx b e
            end
        end
  | PInf =>
      match base with
      | NaN => NaN
      | PInf | NInf => PInf
      | Fin b =>
          match (Qabs b ?= 1)%Q with
          | Gt => PInf
          | Eq => NaN
          | Lt => Fin 0
          end
      end
  | NInf =>
      match base with
      | NaN => NaN
      | PInf | NInf => Fin 0
      | Fin b =>
          match (Qabs b ?= 1)%Q with
          | Gt => Fin 0
          | Eq => NaN
          | Lt => PInf
          end
      end
  end.

(** A number that is zero or above, +Infinity included. *)
Definition nonneg (x : number) : bool := leb (Fin 0) x.

End Number.

(** ** A reference approximation of the power function

    Engines differ in the last bits of [Math.pow]; the theorems below
    hold for every approximation that is non-negative on a positive base.
    [pow_ref] is one such function, used to run the handlers on concrete
    commands: the power of a rational to a rational exponent [p/q],
    through an integer [q]-th root taken with [precision] fractional
    bits. *)

Module PowRef.
Import Number.

Definition precision : Z := 64.

(** Bisection for the integer [q]-th root of [r] between [lo] and [hi]. *)
Fixpoint iroot (fuel : nat) (q : positive) (r lo hi : Z) : Z :=
  match fuel with
  | O => lo
  | S fuel' =>
      let mid := (lo + hi) / 2 in
      if mid ^ Zpos q <=? r
      then iroot fuel' q r mid hi
      else iroot fuel' q r lo mid
  end.

(** The power of a positive base. *)
Definition pow_pos (b e : Q) : number :=
  let e' := Qred e in
  let p := Z.abs (Qnum e') in
  let q := Qden e' in
  let n := Qnum b ^ p in
  let d := Zpos (Qden b) ^ p in
  let r := (n * 2 ^ (Zpos q * precision)) / d in
  let hi := 2 ^ (Z.log2 r / Zpos q + 1) in
  let root := iroot (Z.to_nat (Z.log2 hi + 1)) q r 0 hi in
  if 0 <=? Qnum e' then Fin (Qmake root (Z.to_pos (2 ^ precision)))
  else if root =? 0 then PInf
  else Fin (Qmake (2 ^ precision) (Z.to_pos root)).

Definition neg (x : number) : number :=
  match x with
  | NaN => NaN
  | PInf => NInf
  | NInf => PInf
  | Fin q => Fin (- q)
  end.

Definition pow_ref (b e : Q) : number :=
  if Qle_bool b 0
  then (if is_odd_integer e then neg (pow_pos (- b) e) else pow_pos (- b) e)
  else pow_pos b e.

End PowRef.

(** ** Methods: state, emitted events and settled promises

    Every handler is an [async] arrow function that runs to completion
    without suspending: it reads and writes the fields of [this], emits
    events, and its promise is settled when it returns, resolved with a
    value or rejected with what was thrown. *)

Inductive Exception : Type :=
| TypeError (property : string)   (* reading [property] of undefined or null *)
| ButtplugDeviceException (message : string)
| JsError (message : string).     (* [new Error(message)] *)

Inductive Promise (A : Type) : Type :=
| Resolved (a : A)
| Rejected (e : Exception).
Arguments Resolved {A} a.
Arguments Rejected {A} e.

Section Method.
Context {S E : Type}.

(** A method over an object of type [S] that emits events of type [E]:
    the settled promise, the object afterwards, the events emitted. *)
Definition Method (A : Type) : Type := S -> Promise A * S * list E.

Definition ret {A} (a : A) : Method A := fun this => (Resolved a, this, []).

Definition throw {A} (e : Exception) : Method A :=
  fun this => (Rejected e, this, []).

Definition bind {A B} (m : Method A) (k : A -> Method B) : Method B :=
  fun this =>
    match m this with
    | (Resolved a, this1, evs1) =>
        match k a this1 with
        | (r, this2, evs2) => (r, this2, evs1 ++ evs2)
        end
    | (Rejected e, this1, evs1) => (Rejected e, this1, evs1)
    end.

Definition get : Method S := fun this => (Resolved this, this, []).

Definition modify (f : S -> S) : Method unit :=
  fun this => (Resolved tt, f this, []).

Definition emit (e : E) : Method unit :=
  fun this => (Resolved tt, this, [e]).

(** [xs[0].prop]: the first element of an array; on an empty array
    [xs[0]] is undefined and reading [prop] of it throws a TypeError. *)
Definition first_element {A} (xs : list A) (prop : string) : Method A :=
  match xs !! 0%nat with
  | Some x => ret x
  | None => throw (TypeError prop)
  end.

Definition settled {A} (o : Promise A * S * list E) : Promise A := o.1.1.
Definition after {A} (o : Promise A * S * list E) : S := o.1.2.
Definition emitted {A} (o : Promise A * S * list E) : list E := o.2.
End Method.

Arguments Method : clear implicits.

Declare Scope method_scope.
Delimit Scope method_scope with method.
Notation "x <- m ;; k" := (bind m (fun x => k))
  (at level 100, m at next level, right associativity) : method_scope.
Notation "m ;; k" := (bind m (fun _ => k))
  (at level 100, right associativity) : method_scope.

(** ** Messages *)

Module Kind.
(** The message classes used as keys of [MsgFuncs]. *)
Inductive t : Type :=
| StopDeviceCmd
| SingleMotorVibrateCmd
| VibrateCmd
| RotateCmd
| LinearCmd
| FleshlightLaunchFW12Cmd.

#[global] Instance eq_dec : EqDecision t.
Proof. solve_decision. Defined.

Definition to_nat (k : t) : nat :=
  match k with
  | StopDeviceCmd => 0
  | SingleMotorVibrateCmd => 1
  | VibrateCmd => 2
  | RotateCmd => 3
  | LinearCmd => 4
  | FleshlightLaunchFW12Cmd => 5
  end.

Definition of_nat (n : nat) : option t :=
  match n with
  | 0 => Some StopDeviceCmd
  | 1 => Some SingleMotorVibrateCmd
  | 2 => Some VibrateCmd
  | 3 => Some RotateCmd
  | 4 => Some LinearCmd
  | 5 => Some FleshlightLaunchFW12Cmd
  | _ => None
  end%nat.

#[global] Instance countable : Countable t.
Proof. apply (inj_countable to_nat of_nat). intros []; reflexivity. Defined.
End Kind.

Module Messages.
Import Number.

Inductive ErrorClass : Type :=
| ERROR_UNKNOWN
| ERROR_INIT
| ERROR_PING
| ERROR_MSG
| ERROR_DEVICE.

(** The responses: [new Ok(Id)] and [new Error(ErrorMessage, ErrorCode, Id)]. *)
Inductive ButtplugMessage : Type :=
| Ok (Id : Z)
| Error (ErrorMessage : string) (ErrorCode : ErrorClass) (Id : Z).

Module StopDeviceCmd.
Record t : Type := mk { Id : Z }.
End StopDeviceCmd.

(** [new SingleMotorVibrateCmd(Speed, DeviceIndex, Id)] *)
Module SingleMotorVibrateCmd.
Record t : Type := mk { Speed : number; DeviceIndex : Z; Id : Z }.
End SingleMotorVibrateCmd.

Module SpeedSubcommand.
Record t : Type := mk { Index : Z; Speed : number }.
End SpeedSubcommand.

Module VibrateCmd.
Record t : Type :=
  mk { Speeds : list SpeedSubcommand.t; DeviceIndex : Z; Id : Z }.
End VibrateCmd.

Module RotateSubcommand.
Record t : Type := mk { Speed : number; Clockwise : bool }.
End RotateSubcommand.

Module RotateCmd.
Record t : Type :=
  mk { Rotations : list RotateSubcommand.t; DeviceIndex : Z; Id : Z }.
End RotateCmd.

Module VectorSubcommand.
Record t : Type := mk { Duration : number; Position : number }.
End VectorSubcommand.

Module LinearCmd.
Record t : Type :=
  mk { Vectors : list VectorSubcommand.t; DeviceIndex : Z; Id : Z }.
End LinearCmd.

(** [new FleshlightLaunchFW12Cmd(Speed, Position, DeviceIndex, Id)] *)
Module FleshlightLaunchFW12Cmd.
Record t : Type :=
  mk { Speed : number; Position : number; DeviceIndex : Z; Id : Z }.
End FleshlightLaunchFW12Cmd.
End Messages.

(** ** TestDeviceProtocol *)

Module TestDeviceProtocol.
Import Number Messages.
Local Open Scope method_scope.
Local Open Scope string_scope.

(** The handler properties of the object, the values of [MsgFuncs]. *)
Module Handler.
Inductive t : Type :=
| HandleStopDeviceCmd
| HandleSingleMotorVibrateCmd
| HandleVibrateCmd
| HandleRotateCmd
| HandleFleshlightLaunchFW12Cmd
| HandleLinearCmd.
End Handler.

(** The second argument of [emit]: a bare number, [{speed, clockwise}]
    or [{position, speed}]. *)
Inductive EventArg : Type :=
| ArgNumber (n : number)
| ArgRotate (speed : number) (clockwise : bool)
| ArgLinear (position speed : number).

Definition Event : Type := string * EventArg.

(** The device implementation handed to the constructor; only
    [instanceof TestDeviceImpl] is asked of it. *)
Inductive IButtplugDeviceImpl : Type :=
| TestDeviceImpl
| OtherDeviceImpl.

Definition instanceof_TestDeviceImpl (d : IButtplugDeviceImpl) : bool :=
  match d with TestDeviceImpl => true | OtherDeviceImpl => false end.

Record t : Type := mk {
  Name : string;
  _linearSpeed : number;
  _linearPosition : number;
  _vibrateSpeed : number;
  _rotateSpeed : number;
  _rotateClockwise : bool;
  _shouldVibrate : bool;
  _shouldRotate : bool;
  _shouldLinear : bool;
  MsgFuncs : gmap Kind.t Handler.t
}.

Definition set_linearSpeed (v : number) (this : t) : t :=
  mk (Name this) v (_linearPosition this) (_vibrateSpeed this)
     (_rotateSpeed this) (_rotateClockwise this) (_shouldVibrate this)
     (_shouldRotate this) (_shouldLinear this) (MsgFuncs this).

Definition set_linearPosition (v : number) (this : t) : t :=
  mk (Name this) (_linearSpeed this) v (_vibrateSpeed this)
     (_rotateSpeed this) (_rotateClockwise this) (_shouldVibrate this)
     (_shouldRotate this) (_shouldLinear this) (MsgFuncs this).

Definition set_vibrateSpeed (v : number) (this : t) : t :=
  mk (Name this) (_linearSpeed this) (_linearPosition this) v
     (_rotateSpeed this) (_rotateClockwise this) (_shouldVibrate this)
     (_shouldRotate this) (_shouldLinear this) (MsgFuncs this).

Definition set_rotateSpeed (v : number) (this : t) : t :=
  mk (Name this) (_linearSpeed this) (_linearPosition this)
     (_vibrateSpeed this) v (_rotateClockwise this) (_shouldVibrate this)
     (_shouldRotate this) (_shouldLinear this) (MsgFuncs this).

Definition set_rotateClockwise (v : bool) (this : t) : t :=
  mk (Name this) (_linearSpeed this) (_linearPosition this)
     (_vibrateSpeed this) (_rotateSpeed this) v (_shouldVibrate this)
     (_shouldRotate this) (_shouldLinear this) (MsgFuncs this).

(** [this.MsgFuncs.set(k, h)] *)
Definition MsgFuncs_set (k : Kind.t) (h : Handler.t) (this : t) : t :=
  mk (Name this) (_linearSpeed this) (_linearPosition this)
     (_vibrateSpeed this) (_rotateSpeed this) (_rotateClockwise this)
     (_shouldVibrate this) (_shouldRotate this) (_shouldLinear this)
     (<[k := h]> (MsgFuncs this)).

(** [this.MsgFuncs.has(k)] *)
Definition MsgFuncs_has (k : Kind.t) (this : t) : bool :=
  match MsgFuncs this !! k with
  | Some _ => true
  | None => false
  end.

(** The constructor: the fields take their initialisers and the flags,
    [StopDeviceCmd] is registered, the implementation is checked, then
    each capability registers its messages. *)
Definition constructor (name : string) (deviceImpl : IButtplugDeviceImpl)
    (aShouldVibrate aShouldLinear aShouldRotate : bool) : Exception + t :=
  let this :=
    {| Name := "Test Device - " ++ name;
       _linearSpeed := Fin 0;
       _linearPosition := Fin 0;
       _vibrateSpeed := Fin 0;
       _rotateSpeed := Fin 0;
       _rotateClockwise := false;
       _shouldVibrate := aShouldVibrate;
       _shouldRotate := aShouldRotate;
       _shouldLinear := aShouldLinear;
       MsgFuncs := ∅ |} in
  let this := MsgFuncs_set Kind.StopDeviceCmd Handler.HandleStopDeviceCmd this in
  if negb (instanceof_TestDeviceImpl deviceImpl)
  then inl (ButtplugDeviceException
              "TestDeviceProtocol can only be constructed with a TestDeviceImpl")
  else
    let this :=
      if _shouldVibrate this
      then MsgFuncs_set Kind.VibrateCmd Handler.HandleVibrateCmd
             (MsgFuncs_set Kind.SingleMotorVibrateCmd
                Handler.HandleSingleMotorVibrateCmd this)
      else this in
    let this :=
      if _shouldLinear this
      then MsgFuncs_set Kind.LinearCmd Handler.HandleLinearCmd
             (MsgFuncs_set Kind.FleshlightLaunchFW12Cmd
                Handler.HandleFleshlightLaunchFW12Cmd this)
      else this in
    let this :=
      if _shouldRotate this
      then MsgFuncs_set Kind.RotateCmd Handler.HandleRotateCmd this
      else this in
    inr this.

(** The object [MessageSpecifications] returns: its keys in order, each
    with the attributes of its value ([FeatureCount] or none). *)
Definition Specifications : Type := list (string * list (string * Z)).

Definition MessageSpecifications (this : t) : Specifications :=
  if MsgFuncs_has Kind.VibrateCmd this then
    [ ("VibrateCmd", [("FeatureCount", 2)]);
      ("SingleMotorVibrateCmd", []);
      ("StopDeviceCmd", []) ]
  else if MsgFuncs_has Kind.LinearCmd this then
    [ ("LinearCmd", [("FeatureCount", 1)]);
      ("FleshlightLaunchFW12Cmd", []);
      ("StopDeviceCmd", []) ]
  else if MsgFuncs_has Kind.RotateCmd this then
    [ ("RotateCmd", [("FeatureCount", 1)]);
      ("StopDeviceCmd", []) ]
  else [].

Definition HandleStopDeviceCmd (aMsg : StopDeviceCmd.t)
  : Method t Event ButtplugMessage :=
  this <- get ;;
  (if MsgFuncs_has Kind.VibrateCmd this then
     emit ("vibrate", ArgNumber (Fin 0))
   else if MsgFuncs_has Kind.LinearCmd this then
     emit ("linear", ArgLinear (_linearPosition this) (_linearSpeed this))
   else ret tt) ;;
  ret (Ok (StopDeviceCmd.Id aMsg)).

Definition HandleSingleMotorVibrateCmd (aMsg : SingleMotorVibrateCmd.t)
  : Method t Event ButtplugMessage :=
  modify (set_vibrateSpeed (SingleMotorVibrateCmd.Speed aMsg)) ;;
  emit ("vibrate", ArgNumber (SingleMotorVibrateCmd.Speed aMsg)) ;;
  ret (Ok (SingleMotorVibrateCmd.Id aMsg)).

Definition HandleVibrateCmd (aMsg : VibrateCmd.t)
  : Method t Event ButtplugMessage :=
  speed0 <- first_element (VibrateCmd.Speeds aMsg) "Speed" ;;
  HandleSingleMotorVibrateCmd
    (SingleMotorVibrateCmd.mk (SpeedSubcommand.Speed speed0)
       (VibrateCmd.DeviceIndex aMsg) (VibrateCmd.Id aMsg)).

Definition HandleRotateCmd (aMsg : RotateCmd.t)
  : Method t Event ButtplugMessage :=
  r0 <- first_element (RotateCmd.Rotations aMsg) "Speed" ;;
  modify (set_rotateSpeed (RotateSubcommand.Speed r0)) ;;
  r0' <- first_element (RotateCmd.Rotations aMsg) "Clockwise" ;;
  modify (set_rotateClockwise (RotateSubcommand.Clockwise r0')) ;;
  this <- get ;;
  emit ("vibrate", ArgRotate (_rotateSpeed this) (_rotateClockwise this)) ;;
  ret (Ok (RotateCmd.Id aMsg)).

Definition HandleFleshlightLaunchFW12Cmd (aMsg : FleshlightLaunchFW12Cmd.t)
  : Method t Event ButtplugMessage :=
  modify (set_linearPosition (FleshlightLaunchFW12Cmd.Position aMsg)) ;;
  modify (set_linearSpeed (FleshlightLaunchFW12Cmd.Speed aMsg)) ;;
  this <- get ;;
  emit ("linear", ArgLinear (_linearPosition this) (_linearSpeed this)) ;;
  ret (Ok (FleshlightLaunchFW12Cmd.Id aMsg)).

Section Linear.
(** The engine's approximation of the power function (see [Math_pow]). *)
Variable pow_approx : Q -> Q -> number.

Definition HandleLinearCmd (aMsg : LinearCmd.t)
  : Method t Event ButtplugMessage :=
  if negb (length (LinearCmd.Vectors aMsg) =? 1)%nat then
    ret (Error "LinearCmd requires 1 vector for this device."
           ERROR_DEVICE (LinearCmd.Id aMsg))
  else
    let range := Fin 90 in
    vector <- first_element (LinearCmd.Vectors aMsg) "Position" ;;
    this <- get ;;
    let currentPosition := mul (VectorSubcommand.Position vector) (Fin 100) in
    let positionDelta :=
      Math_abs (sub currentPosition (_linearPosition this)) in
    let speed :=
      Math_floor
        (mul (Fin 25000)
           (Math_pow pow_approx
              (div (mul (VectorSubcommand.Duration vector) (Fin 90))
                 positionDelta)
              (Fin (-1.05)))) in
    let speed := Math_min (Math_max speed (Fin 0)) (Fin 95) in
    let positionGoal :=
      Math_floor
        (add (mul (div currentPosition (Fin 99)) range)
           (div (sub (Fin 99) range) (Fin 2))) in
    HandleFleshlightLaunchFW12Cmd
      (FleshlightLaunchFW12Cmd.mk speed positionGoal
         (LinearCmd.DeviceIndex aMsg) (LinearCmd.Id aMsg)).
End Linear.

End TestDeviceProtocol.

(** ** ButtplugBrowserClient *)

Module ButtplugBrowserClient.
Local Open Scope method_scope.
Local Open Scope string_scope.

Section Client.
(** The in-process server ([../server/ButtplugServer]) and the
    messages it exchanges are outside this file: the server is a value
    of some type, created by [new ButtplugServer()], and
    [server.SendMessage(msg)] answers with a settled promise. *)
Context {ButtplugServer Message : Type}.
Variable new_ButtplugServer : ButtplugServer.
Variable SendMessage :
  ButtplugServer -> Message -> ButtplugServer * Promise Message.

(** What the client does to the outside, in order: the events it
    emits, the listener it registers on the server, the message it
    hands to the server, and the calls to the base class
    [ButtplugClient] ([InitializeConnection], [ParseMessages]). *)
Inductive Effect : Type :=
| Emit (event : string)
| AddListener (event listener : string)
| CallInitializeConnection
| CallSendMessage (aMsg : Message)
| CallParseMessages (msgs : list Message).

Record t : Type := mk {
  _connected : bool;
  _server : option ButtplugServer
}.

Definition set_connected (v : bool) (this : t) : t :=
  mk v (_server this).

Definition set_server (v : option ButtplugServer) (this : t) : t :=
  mk (_connected this) v.

(** The state the constructor leaves. *)
Definition constructor : t := {| _connected := false; _server := None |}.

(** The getter [Connected]. *)
Definition Connected (this : t) : bool := _connected this.

Definition Connect (aUrl : string) : Method t Effect unit :=
  modify (set_connected true) ;;
  modify (set_server (Some new_ButtplugServer)) ;;
  emit (AddListener "message" "OnMessageReceived") ;;
  emit CallInitializeConnection ;;
  ret tt.

(** [Disconnect] is a plain function; [Resolved tt] is its return. *)
Definition Disconnect : Method t Effect unit :=
  this <- get ;;
  if negb (Connected this) then ret tt
  else
    modify (set_connected false) ;;
    modify (set_server None) ;;
    emit (Emit "close").

Definition Send (aMsg : Message) : Method t Effect unit :=
  this <- get ;;
  if negb (Connected this) then
    throw (JsError "ButtplugClient not connected")
  else
    match _server this with
    | None => throw (TypeError "SendMessage")
    | Some server =>
        emit (CallSendMessage aMsg) ;;
        let (server', answer) := SendMessage server aMsg in
        modify (set_server (Some server')) ;;
        match answer with
        | Rejected e => throw e
        | Resolved returnMsg => emit (CallParseMessages [returnMsg])
        end
    end.

Definition OnMessageReceived (aMsg : Message) : Method t Effect unit :=
  emit (CallParseMessages [aMsg]).

(** How many times [event] was emitted in a trace. *)
Fixpoint emit_count (event : string) (trace : list Effect) : nat :=
  match trace with
  | [] => 0
  | Emit ev :: rest =>
      if String.eqb ev event
      then S (emit_count event rest)
      else emit_count event rest
  | _ :: rest => emit_count event rest
  end.
End Client.

Arguments Effect : clear implicits.
Arguments t : clear implicits.
End ButtplugBrowserClient.

(** ** The command translation as the specification words it

    [CommandTranslator] follows the specification of the translation of a
    linear command into the (speed, position) pair of the Launch; it is
    compared with [HandleLinearCmd] below. *)

Module Spec.
Import Number.

Definition clamp (x lo hi : number) : number :=
  if ltb x lo then lo else if ltb hi x then hi else x.

Definition CommandTranslator (pow_approx : Q -> Q -> number)
    (duration_ms targetPositionNormalized lastKnownPosition : number)
  : number * number :=
  let currentPosition := mul targetPositionNormalized (Fin 100) in
  let positionDelta := Math_abs (sub currentPosition lastKnownPosition) in
  let speed :=
    Math_floor
      (mul (Fin 25000)
         (Math_pow pow_approx
            (div (mul duration_ms (Fin 90)) positionDelta) (Fin (-1.05)))) in
  let speed := clamp speed (Fin 0) (Fin 95) in
  let positionGoal :=
    Math_floor (add (mul (div currentPosition (Fin 99)) (Fin 90)) (Fin 4.5)) in
  (speed, positionGoal).
End Spec.

(** ** Sample objects and commands

    The objects the examples below run on, each built by the constructor
    of its class. *)

Module Samples.
Import Number Messages TestDeviceProtocol.
Local Open Scope string_scope.

(** What is left of a construction that threw. *)
Definition no_device : TestDeviceProtocol.t :=
  mk "" NaN NaN NaN NaN false false false false ∅.

(** A vibrate-only test device. *)
Definition vibrate_device : TestDeviceProtocol.t :=
  match constructor "vibrate" TestDeviceImpl true false false with
  | inr this => this
  | inl _ => no_device
  end.

(** A linear-only test device; its [_linearPosition] is 0. *)
Definition linear_device : TestDeviceProtocol.t :=
  match constructor "linear" TestDeviceImpl false true false with
  | inr this => this
  | inl _ => no_device
  end.

(** [LinearCmd] with the one vector [{Duration, Position}]. *)
Definition linear_cmd (Duration Position : Q) : LinearCmd.t :=
  LinearCmd.mk [VectorSubcommand.mk (Fin Duration) (Fin Position)] 0 7.

(** An in-process server that counts the messages it was sent and
    answers each with the message itself. *)
Definition loopback_SendMessage (server : nat) (aMsg : ButtplugMessage)
  : nat * Promise ButtplugMessage :=
  (S server, Resolved aMsg).

(** The client after [Connect] on a freshly constructed one. *)
Definition connected_client : ButtplugBrowserClient.t nat :=
  after (ButtplugBrowserClient.Connect (Message := ButtplugMessage)
           0%nat "ws://localhost" ButtplugBrowserClient.constructor).
End Samples.

(** ** Sequences of calls

    The handlers are reached one message at a time and the client's
    methods one call at a time; a sequence of them threads the object and
    appends what was emitted. *)

Module Calls.
Import Number Messages TestDeviceProtocol.

(** A message, tagged with the handler its class is registered with. *)
Inductive Request : Type :=
| StopDevice (aMsg : StopDeviceCmd.t)
| SingleMotorVibrate (aMsg : SingleMotorVibrateCmd.t)
| Vibrate (aMsg : VibrateCmd.t)
| Rotate (aMsg : RotateCmd.t)
| FleshlightLaunchFW12 (aMsg : FleshlightLaunchFW12Cmd.t)
| Linear (aMsg : LinearCmd.t).

(** The handler a request runs. *)
Definition invoke (pow_approx : Q -> Q -> number) (r : Request)
  : Method TestDeviceProtocol.t Event ButtplugMessage :=
  match r with
  | StopDevice aMsg => HandleStopDeviceCmd aMsg
  | SingleMotorVibrate aMsg => HandleSingleMotorVibrateCmd aMsg
  | Vibrate aMsg => HandleVibrateCmd aMsg
  | Rotate aMsg => HandleRotateCmd aMsg
  | FleshlightLaunchFW12 aMsg => HandleFleshlightLaunchFW12Cmd aMsg
  | Linear aMsg => HandleLinearCmd pow_approx aMsg
  end.

(** The requests handled one after the other, each on the object the one
    before left (a rejected promise leaves the object as it was when the
    handler threw): the object at the end and all the events. *)
Fixpoint invoke_all (pow_approx : Q -> Q -> number) (rs : list Request)
    (this : TestDeviceProtocol.t) : TestDeviceProtocol.t * list Event :=
  match rs with
  | [] => (this, [])
  | r :: rs' =>
      let o := invoke pow_approx r this in
      let rest := invoke_all pow_approx rs' (after o) in
      (rest.1, emitted o ++ rest.2)
  end.

(** A linear command a well-behaved caller sends: one vector, a target
    between 0 and 1, a duration above zero. *)
Definition well_formed_linear (r : Request) : Prop :=
  match r with
  | Linear aMsg =>
      exists (dq p : Q),
        LinearCmd.Vectors aMsg = [VectorSubcommand.mk (Fin dq) (Fin p)]
        /\ (0 < dq)%Q /\ (0 <= p <= 1)%Q
  | _ => False
  end.

(** A "linear" event whose position is an integer from 4 to 95 and whose
    speed is an integer from 0 to 95. *)
Definition safe_linear_event (e : Event) : Prop :=
  exists positionGoal speed : Z,
    e = ("linear"%string,
         ArgLinear (Fin (inject_Z positionGoal)) (Fin (inject_Z speed)))
    /\ 4 <= positionGoal <= 95 /\ 0 <= speed <= 95.

(** A rotate-only test device. *)
Definition rotate_device : TestDeviceProtocol.t :=
  match constructor "rotate"%string TestDeviceImpl false false true with
  | inr this => this
  | inl _ => Samples.no_device
  end.

(** Two objects with the same name, flags and dispatch table. *)
Definition same_dispatch (a b : TestDeviceProtocol.t) : Prop :=
  Name a = Name b
  /\ _shouldVibrate a = _shouldVibrate b
  /\ _shouldLinear a = _shouldLinear b
  /\ _shouldRotate a = _shouldRotate b
  /\ MsgFuncs a = MsgFuncs b.
End Calls.

Module ClientCalls.
Import ButtplugBrowserClient.

Section Ops.
Context {ButtplugServer Message : Type}.
Variable new_ButtplugServer : ButtplugServer.
Variable SendMessage :
  ButtplugServer -> Message -> ButtplugServer * Promise Message.

(** A call of one of the client's methods. *)
Inductive Op : Type :=
| OpConnect (aUrl : string)
| OpDisconnect
| OpSend (aMsg : Message)
| OpOnMessageReceived (aMsg : Message).

Definition call (op : Op)
  : Method (ButtplugBrowserClient.t ButtplugServer) (Effect Message) unit :=
  match op with
  | OpConnect aUrl => Connect new_ButtplugServer aUrl
  | OpDisconnect => Disconnect
  | OpSend aMsg => Send SendMessage aMsg
  | OpOnMessageReceived aMsg => OnMessageReceived aMsg
  end.

(** The calls made one after the other: the client at the end, how each
    call settled, and all the effects. *)
Fixpoint run (ops : list Op) (this : ButtplugBrowserClient.t ButtplugServer)
  : ButtplugBrowserClient.t ButtplugServer * list (Promise unit)
    * list (Effect Message) :=
  match ops with
  | [] => (this, [], [])
  | op :: ops' =>
      let o := call op this in
      let rest := run ops' (after o) in
      (rest.1.1, settled o :: rest.1.2, emitted o ++ rest.2)
  end.

(** How many of the calls are [Connect]. *)
Fixpoint connect_count (ops : list Op) : nat :=
  match ops with
  | [] => 0
  | OpConnect _ :: ops' => S (connect_count ops')
  | _ :: ops' => connect_count ops'
  end.

(** [_server] holds a server exactly when [_connected] is set. *)
Definition consistent (this : ButtplugBrowserClient.t ButtplugServer) : Prop :=
  _connected this = match _server this with Some _ => true | None => false end.
End Ops.

Arguments Op : clear implicits.
End ClientCalls.

(** * Properties *)

Import Number Messages.

(** ** The method combinators *)

Section MethodLemmas.
Context {S E : Type}.

Lemma first_element_nil {A} (prop : string) (this : S) :
  first_element (E := E) (@nil A) prop this =
  (Rejected (TypeError prop), this, []).
Proof. reflexivity. Qed.

Lemma bind_rejected {A B} (m : Method S E A) (k : A -> Method S E B)
    (this this1 : S) (e : Exception) (evs : list E) :
  m this = (Rejected e, this1, evs) ->
  bind m k this = (Rejected e, this1, evs).
Proof. intros Hm. unfold bind. rewrite Hm. reflexivity. Qed.
End MethodLemmas.

(** ** Numbers *)

Module NumberFacts.

Lemma Qle_bool_inject_Z (a b : Z) :
  Qle_bool (inject_Z a) (inject_Z b) = (a <=? b).
Proof. unfold Qle_bool, inject_Z; simpl. rewrite !Z.mul_1_r. reflexivity. Qed.

(** On an integer the clamp of the code is the integer clamp. *)
Lemma clamp_integer (z : Z) :
  Math_min (Math_max (Fin (inject_Z z)) (Fin 0)) (Fin 95) =
  Fin (inject_Z (Z.min (Z.max z 0) 95)).
Proof.
  change (Fin 0) with (Fin (inject_Z 0)).
  change (Fin 95) with (Fin (inject_Z 95)).
  unfold Math_max. rewrite Qle_bool_inject_Z.
  destruct (Z.leb_spec z 0) as [Hz | Hz];
    unfold Math_min; rewrite Qle_bool_inject_Z.
  - simpl. rewrite Z.max_r by lia. reflexivity.
  - destruct (Z.leb_spec z 95) as [Hz' | Hz'].
    + rewrite Z.max_l, Z.min_l by lia. reflexivity.
    + rewrite Z.max_l, Z.min_r by lia. reflexivity.
Qed.

(** The clamp lets NaN through ... *)
Lemma clamp_floor_NaN :
  Math_min (Math_max (Math_floor NaN) (Fin 0)) (Fin 95) = NaN.
Proof. reflexivity. Qed.

(** ... and brings every other value to an integer from 0 to 95. *)
Lemma clamp_floor_range (x : number) :
  isNaN x = false ->
  exists z : Z,
    Math_min (Math_max (Math_floor x) (Fin 0)) (Fin 95) = Fin (inject_Z z)
    /\ 0 <= z <= 95.
Proof.
  destruct x as [| | | q]; intros Hx.
  - discriminate.
  - exists 95. split; [reflexivity | lia].
  - exists 0. split; [reflexivity | lia].
  - exists (Z.min (Z.max (Qfloor q) 0) 95).
    split; [apply clamp_integer | lia].
Qed.

(** The clamp by comparisons of the specification and the clamp by
    [Math.min] and [Math.max] of the code agree on every floor. *)
Lemma clamp_spec_code (x : number) :
  Spec.clamp (Math_floor x) (Fin 0) (Fin 95) =
  Math_min (Math_max (Math_floor x) (Fin 0)) (Fin 95).
Proof.
  destruct x as [| | | q]; try reflexivity.
  simpl Math_floor. rewrite clamp_integer.
  change (Fin 0) with (Fin (inject_Z 0)).
  change (Fin 95) with (Fin (inject_Z 95)).
  unfold Spec.clamp, ltb.
  rewrite !Qle_bool_inject_Z.
  destruct (Z.leb_spec 0 (Qfloor q)) as [H0 | H0]; simpl.
  - destruct (Z.leb_spec (Qfloor q) 95) as [H1 | H1]; simpl.
    + rewrite Z.max_l, Z.min_l by lia. reflexivity.
    + rewrite Z.max_l, Z.min_r by lia. reflexivity.
  - rewrite Z.max_r, Z.min_l by lia. reflexivity.
Qed.

Lemma goal_expr (p : Q) :
  (p * 100 / 99 * 90 + (99 - 90) / 2 == p * (1000 # 11) + (9 # 2))%Q.
Proof. field. Qed.

(** The position goal of a target between 0 and 1. *)
Lemma goal_bounds (p : Q) :
  (0 <= p <= 1)%Q ->
  4 <= Qfloor (p * 100 / 99 * 90 + (99 - 90) / 2) <= 95.
Proof.
  intros [H0 H1]. split.
  - change 4 with (Qfloor (9 # 2)%Q). apply Qfloor_resp_le.
    rewrite goal_expr. lra.
  - change 95 with (Qfloor ((1000 # 11) + (9 # 2))%Q). apply Qfloor_resp_le.
    rewrite goal_expr. lra.
Qed.

(** The offset [(99 - range) / 2] of the code is the 4.5 of the
    specification. *)
Lemma goal_offset (x : number) :
  Math_floor (add x (div (sub (Fin 99) (Fin 90)) (Fin 2))) =
  Math_floor (add x (Fin 4.5)).
Proof.
  destruct x as [| | | q]; try reflexivity.
  change (div (sub (Fin 99) (Fin 90)) (Fin 2)) with (Fin ((99 - 90) / 2)).
  unfold add, Math_floor. f_equal. f_equal. apply Qfloor_comp.
  apply Qplus_comp; [reflexivity | vm_compute; reflexivity].
Qed.

Lemma sign_pos (q : Q) : (0 < q)%Q -> sign (Fin q) = Gt.
Proof. intros H. unfold sign. rewrite <- Qgt_alt. exact H. Qed.

Lemma sign_neg (q : Q) : (q < 0)%Q -> sign (Fin q) = Lt.
Proof. intros H. unfold sign. rewrite <- Qlt_alt. exact H. Qed.

Lemma Qabs_zero_iff (x : Q) : (Qabs x == 0)%Q <-> (x == 0)%Q.
Proof.
  split.
  - apply Qabs_case; intros; lra.
  - intros ->. reflexivity.
Qed.

Section Pow.
Variable pow_approx : Q -> Q -> number.

(** [Math.pow(base, -1.05)] of an infinity is zero. *)
Lemma pow_inf (base : number) :
  base = PInf \/ base = NInf ->
  Math_pow pow_approx base (Fin (-1.05)) = Fin 0.
Proof. intros [-> | ->]; reflexivity. Qed.

(** [Math.pow(base, -1.05)] of NaN and of a negative base is NaN. *)
Lemma pow_NaN : Math_pow pow_approx NaN (Fin (-1.05)) = NaN.
Proof. reflexivity. Qed.

Lemma pow_negative_base (b : Q) :
  (b < 0)%Q -> Math_pow pow_approx (Fin b) (Fin (-1.05)) = NaN.
Proof.
  intros Hb. unfold Math_pow.
  change (Qeq_bool (-1.05) 0) with false.
  change (is_integer (-1.05)) with false. cbv iota.
  rewrite (proj1 (Qlt_alt _ _) Hb). reflexivity.
Qed.

Hypothesis pow_approx_nonneg :
  forall b e : Q, (0 < b)%Q -> nonneg (pow_approx b e) = true.

Lemma pow_nonneg_base (b : Q) :
  (0 <= b)%Q ->
  nonneg (Math_pow pow_approx (Fin b) (Fin (-1.05))) = true.
Proof.
  intros Hb. unfold Math_pow.
  change (Qeq_bool (-1.05) 0) with false.
  change (Qle_bool (-1.05) 0) with true. cbv iota.
  destruct (b ?= 0)%Q eqn:Hcmp.
  - reflexivity.
  - apply Qlt_alt in Hcmp. lra.
  - apply pow_approx_nonneg. apply Qgt_alt in Hcmp. exact Hcmp.
Qed.

Lemma mul_nonneg_not_NaN (c : Q) (x : number) :
  (0 < c)%Q -> nonneg x = true -> isNaN (mul (Fin c) x) = false.
Proof.
  intros Hc. destruct x as [| | | q]; simpl; try discriminate; try reflexivity.
  intros _. destruct (c ?= 0)%Q eqn:Hcmp; try reflexivity.
  apply Qeq_alt in Hcmp. lra.
Qed.

(** The value the clamp receives is a number as soon as the duration
    is zero or above, and not zero together with the delta. *)
Lemma speed_not_NaN (d : number) (pd : Q) :
  (0 <= pd)%Q ->
  nonneg d = true ->
  sign d = Gt \/ ~ (pd == 0)%Q ->
  isNaN (mul (Fin 25000)
           (Math_pow pow_approx (div (mul d (Fin 90)) (Fin pd))
              (Fin (-1.05)))) = false.
Proof.
  intros Hpd Hd Hnz.
  apply mul_nonneg_not_NaN; [reflexivity |].
  destruct d as [| | | dq]; try discriminate.
  - (* +Infinity *)
    change (mul PInf (Fin 90)) with PInf.
    rewrite pow_inf; [reflexivity |]. left.
    unfold div. destruct (Qeq_bool pd 0) eqn:Hz; [reflexivity |].
    apply Qeq_bool_neq in Hz.
    rewrite sign_pos by lra. reflexivity.
  - simpl in Hd. apply Qle_bool_iff in Hd.
    simpl mul. unfold div.
    destruct (Qeq_bool pd 0) eqn:Hz.
    + apply Qeq_bool_iff in Hz.
      destruct Hnz as [Hpos | Hne]; [| contradiction].
      simpl in Hpos. apply Qgt_alt in Hpos.
      rewrite sign_pos by lra. reflexivity.
    + apply Qeq_bool_neq in Hz.
      apply pow_nonneg_base. unfold Qdiv.
      apply Qmult_le_0_compat; [lra |].
      apply Qinv_le_0_compat. exact Hpd.
Qed.
End Pow.
End NumberFacts.

(** ** The reference power function is non-negative *)

Module PowRefFacts.
Import PowRef.

Lemma iroot_nonneg (fuel : nat) (q : positive) (r lo hi : Z) :
  0 <= lo -> 0 <= hi -> 0 <= iroot fuel q r lo hi.
Proof.
  revert lo hi. induction fuel as [| fuel IH]; intros lo hi Hlo Hhi; simpl.
  - exact Hlo.
  - assert (Hmid : 0 <= (lo + hi) / 2) by (apply Z.div_pos; lia).
    destruct (_ <=? r); apply IH; assumption.
Qed.

Lemma pow_pos_nonneg (b e : Q) : nonneg (pow_pos b e) = true.
Proof.
  unfold pow_pos.
  set (r := _ / _).
  set (hi := 2 ^ _).
  set (root := iroot _ _ _ _ _).
  assert (Hroot : 0 <= root).
  { apply iroot_nonneg; [lia |]. apply Z.pow_nonneg. lia. }
  destruct (0 <=? Qnum (Qred e)).
  - unfold nonneg, leb, Qle_bool. simpl. apply Z.leb_le. lia.
  - destruct (root =? 0); [reflexivity |].
    unfold nonneg, leb, Qle_bool. simpl Qnum. simpl Qden.
    apply Z.leb_le. vm_compute. discriminate.
Qed.

Lemma pow_ref_nonneg (b e : Q) :
  (0 < b)%Q -> nonneg (pow_ref b e) = true.
Proof.
  intros Hb. unfold pow_ref.
  destruct (Qle_bool b 0) eqn:Hle.
  - apply Qle_bool_iff in Hle. lra.
  - apply pow_pos_nonneg.
Qed.
End PowRefFacts.

(** ** TestDeviceProtocol: dispatch table and simple handlers *)

Module DeviceFacts.
Import TestDeviceProtocol.
Local Open Scope string_scope.

(** The constructor registers a message class exactly when its
    capability flag is set; [StopDeviceCmd] always. *)
Lemma constructor_registers (name : string) (v l r : bool) :
  exists this,
    constructor name TestDeviceImpl v l r = inr this
    /\ MsgFuncs_has Kind.StopDeviceCmd this = true
    /\ MsgFuncs_has Kind.SingleMotorVibrateCmd this = v
    /\ MsgFuncs_has Kind.VibrateCmd this = v
    /\ MsgFuncs_has Kind.FleshlightLaunchFW12Cmd this = l
    /\ MsgFuncs_has Kind.LinearCmd this = l
    /\ MsgFuncs_has Kind.RotateCmd this = r.
Proof.
  destruct v, l, r; eexists; (split; [reflexivity |]);
    repeat split; vm_compute; reflexivity.
Qed.

(** Another implementation than [TestDeviceImpl] is refused. *)
Lemma constructor_rejects_other_impl (name : string) (v l r : bool) :
  constructor name OtherDeviceImpl v l r =
  inl (ButtplugDeviceException
         "TestDeviceProtocol can only be constructed with a TestDeviceImpl").
Proof. reflexivity. Qed.

(** The stop handler writes no field of the object, whatever is
    registered. *)
Lemma HandleStopDeviceCmd_state (aMsg : StopDeviceCmd.t) (this : TestDeviceProtocol.t) :
  after (HandleStopDeviceCmd aMsg this) = this.
Proof.
  unfold HandleStopDeviceCmd, bind, get, emit, ret, after.
  destruct (MsgFuncs_has Kind.VibrateCmd this);
    [| destruct (MsgFuncs_has Kind.LinearCmd this)]; reflexivity.
Qed.

(** On a vibrate-capable device the stop handler emits "vibrate" with 0
    and resolves with [Ok]. *)
Lemma HandleStopDeviceCmd_vibrate (aMsg : StopDeviceCmd.t) (this : TestDeviceProtocol.t) :
  MsgFuncs_has Kind.VibrateCmd this = true ->
  HandleStopDeviceCmd aMsg this =
  (Resolved (Ok (StopDeviceCmd.Id aMsg)), this,
   [("vibrate", ArgNumber (Fin 0))]).
Proof.
  intros Hv. unfold HandleStopDeviceCmd, bind, get. rewrite Hv. reflexivity.
Qed.

Lemma HandleSingleMotorVibrateCmd_eq (aMsg : SingleMotorVibrateCmd.t)
    (this : TestDeviceProtocol.t) :
  HandleSingleMotorVibrateCmd aMsg this =
  (Resolved (Ok (SingleMotorVibrateCmd.Id aMsg)),
   set_vibrateSpeed (SingleMotorVibrateCmd.Speed aMsg) this,
   [("vibrate", ArgNumber (SingleMotorVibrateCmd.Speed aMsg))]).
Proof. reflexivity. Qed.

Lemma HandleFleshlightLaunchFW12Cmd_eq (aMsg : FleshlightLaunchFW12Cmd.t)
    (this : TestDeviceProtocol.t) :
  HandleFleshlightLaunchFW12Cmd aMsg this =
  (Resolved (Ok (FleshlightLaunchFW12Cmd.Id aMsg)),
   set_linearSpeed (FleshlightLaunchFW12Cmd.Speed aMsg)
     (set_linearPosition (FleshlightLaunchFW12Cmd.Position aMsg) this),
   [("linear", ArgLinear (FleshlightLaunchFW12Cmd.Position aMsg)
                 (FleshlightLaunchFW12Cmd.Speed aMsg))]).
Proof. reflexivity. Qed.

(** With exactly one vector the linear handler forwards the pair it
    computes to the Launch handler. *)
Lemma HandleLinearCmd_one_vector (pow_approx : Q -> Q -> number)
    (aMsg : LinearCmd.t) (v : VectorSubcommand.t) (this : TestDeviceProtocol.t) :
  LinearCmd.Vectors aMsg = [v] ->
  HandleLinearCmd pow_approx aMsg this =
  HandleFleshlightLaunchFW12Cmd
    (FleshlightLaunchFW12Cmd.mk
       (Math_min
          (Math_max
             (Math_floor
                (mul (Fin 25000)
                   (Math_pow pow_approx
                      (div (mul (VectorSubcommand.Duration v) (Fin 90))
                         (Math_abs
                            (sub (mul (VectorSubcommand.Position v) (Fin 100))
                               (_linearPosition this))))
                      (Fin (-1.05)))))
             (Fin 0))
          (Fin 95))
       (Math_floor
          (add (mul (div (mul (VectorSubcommand.Position v) (Fin 100)) (Fin 99))
                  (Fin 90))
             (div (sub (Fin 99) (Fin 90)) (Fin 2))))
       (LinearCmd.DeviceIndex aMsg) (LinearCmd.Id aMsg))
    this.
Proof.
  intros Hv. unfold HandleLinearCmd. rewrite Hv. reflexivity.
Qed.

(** The translation as the specification words it is the one the linear
    handler computes, for every duration, target and last position. *)
Lemma HandleLinearCmd_CommandTranslator (pow_approx : Q -> Q -> number)
    (aMsg : LinearCmd.t) (v : VectorSubcommand.t) (this : TestDeviceProtocol.t) :
  LinearCmd.Vectors aMsg = [v] ->
  HandleLinearCmd pow_approx aMsg this =
  HandleFleshlightLaunchFW12Cmd
    (FleshlightLaunchFW12Cmd.mk
       (Spec.CommandTranslator pow_approx (VectorSubcommand.Duration v)
          (VectorSubcommand.Position v) (_linearPosition this)).1
       (Spec.CommandTranslator pow_approx (VectorSubcommand.Duration v)
          (VectorSubcommand.Position v) (_linearPosition this)).2
       (LinearCmd.DeviceIndex aMsg) (LinearCmd.Id aMsg))
    this.
Proof.
  intros Hv. rewrite (HandleLinearCmd_one_vector _ _ _ _ Hv).
  cbv beta iota zeta delta [Spec.CommandTranslator fst snd].
  rewrite NumberFacts.clamp_spec_code, NumberFacts.goal_offset.
  reflexivity.
Qed.

(** When the target times 100 is exactly the last position, the delta is
    zero in the engine as well (the product needs no rounding), and with a
    duration that is a number other than zero the speed stored is 0: the
    quotient by zero is an infinity, whose power -1.05 is zero. *)
Lemma HandleLinearCmd_exact_zero_delta (pow_approx : Q -> Q -> number)
    (aMsg : LinearCmd.t) (this : TestDeviceProtocol.t)
    (d : number) (p l : Q) :
  LinearCmd.Vectors aMsg = [VectorSubcommand.mk d (Fin p)] ->
  _linearPosition this = Fin l ->
  (p * 100 == l)%Q ->
  sign d <> Eq ->
  settled (HandleLinearCmd pow_approx aMsg this)
    = Resolved (Ok (LinearCmd.Id aMsg))
  /\ _linearSpeed (after (HandleLinearCmd pow_approx aMsg this)) = Fin 0.
Proof.
  intros Hv Hl Hzero Hd.
  rewrite (HandleLinearCmd_one_vector _ _ _ _ Hv).
  rewrite HandleFleshlightLaunchFW12Cmd_eq.
  split; [reflexivity |].
  cbn [after fst snd _linearSpeed set_linearSpeed FleshlightLaunchFW12Cmd.Speed].
  rewrite Hl. simpl VectorSubcommand.Duration. simpl VectorSubcommand.Position.
  change (mul (Fin p) (Fin 100)) with (Fin (p * 100)).
  change (sub (Fin (p * 100)) (Fin l)) with (Fin (p * 100 - l)).
  change (Math_abs (Fin (p * 100 - l))) with (Fin (Qabs (p * 100 - l))).
  assert (Hbase : div (mul d (Fin 90)) (Fin (Qabs (p * 100 - l))) = PInf
                  \/ div (mul d (Fin 90)) (Fin (Qabs (p * 100 - l))) = NInf).
  { assert (Hz : Qeq_bool (Qabs (p * 100 - l)) 0 = true).
    { apply Qeq_bool_iff. rewrite NumberFacts.Qabs_zero_iff. lra. }
    destruct d as [| | | dq].
    - contradiction Hd; reflexivity.
    - left. change (mul PInf (Fin 90)) with PInf.
      unfold div. rewrite Hz. reflexivity.
    - right. change (mul NInf (Fin 90)) with NInf.
      unfold div. rewrite Hz. reflexivity.
    - unfold mul, div. rewrite Hz. simpl in Hd.
      destruct (dq ?= 0)%Q eqn:Hcmp; [contradiction Hd; reflexivity | |].
      + right. apply Qlt_alt in Hcmp.
        rewrite NumberFacts.sign_neg by lra. reflexivity.
      + left. apply Qgt_alt in Hcmp.
        rewrite NumberFacts.sign_pos by lra. reflexivity. }
  rewrite (NumberFacts.pow_inf pow_approx _ Hbase).
  reflexivity.
Qed.
End DeviceFacts.

Import TestDeviceProtocol Samples.
Local Open Scope string_scope.

(** The fixed triple of the specification: 500 ms to the middle of the
    stroke from position 0 gives speed 19 and position goal 49. *)
Example HandleLinearCmd_500ms_to_half :
  HandleLinearCmd PowRef.pow_ref (linear_cmd 500 0.5) linear_device =
  (Resolved (Ok 7),
   set_linearSpeed (Fin 19) (set_linearPosition (Fin 49) linear_device),
   [("linear", ArgLinear (Fin 49) (Fin 19))]).
Proof. vm_compute. reflexivity. Qed.

(** ** The linear translation *)

(** C1, as the code has it.  For a [LinearCmd] with exactly one vector
    and a target [Position] between 0 and 1, whatever the [Duration] and
    whatever the device holds: the handler resolves with [Ok] and emits
    the pair it stores; [_linearPosition] becomes an integer from 4 to 95
    (the floor takes the lower end 4.5 of the band to 4, and the target 1
    gives 95); and [_linearSpeed] becomes an integer from 0 to 95 whenever
    the speed computed is a number, the clamp letting only NaN through.
    It is a number, from a finite last position, for every duration above
    zero, +Infinity included, and for -Infinity. *)
Theorem HandleLinearCmd_safety_bounds
    (pow_approx : Q -> Q -> number)
    (pow_approx_nonneg :
       forall b e : Q, (0 < b)%Q -> nonneg (pow_approx b e) = true)
    (aMsg : LinearCmd.t) (this : TestDeviceProtocol.t)
    (d : number) (p : Q) :
  LinearCmd.Vectors aMsg = [VectorSubcommand.mk d (Fin p)] ->
  (0 <= p <= 1)%Q ->
  settled (HandleLinearCmd pow_approx aMsg this)
    = Resolved (Ok (LinearCmd.Id aMsg))
  /\ emitted (HandleLinearCmd pow_approx aMsg this)
     = [("linear",
         ArgLinear (_linearPosition (after (HandleLinearCmd pow_approx aMsg this)))
           (_linearSpeed (after (HandleLinearCmd pow_approx aMsg this))))]
  /\ (exists positionGoal : Z,
        _linearPosition (after (HandleLinearCmd pow_approx aMsg this))
        = Fin (inject_Z positionGoal)
        /\ 4 <= positionGoal <= 95)
  /\ (_linearSpeed (after (HandleLinearCmd pow_approx aMsg this)) = NaN
      \/ exists speed : Z,
           _linearSpeed (after (HandleLinearCmd pow_approx aMsg this))
           = Fin (inject_Z speed)
           /\ 0 <= speed <= 95)
  /\ (forall l : Q,
        _linearPosition this = Fin l ->
        ltb (Fin 0) d = true \/ d = NInf ->
        exists speed : Z,
          _linearSpeed (after (HandleLinearCmd pow_approx aMsg this))
          = Fin (inject_Z speed)
          /\ 0 <= speed <= 95).
Proof.
  intros Hv Hp.
  rewrite (DeviceFacts.HandleLinearCmd_one_vector _ _ _ _ Hv).
  rewrite DeviceFacts.HandleFleshlightLaunchFW12Cmd_eq.
  cbn [settled after emitted fst snd _linearSpeed _linearPosition
       set_linearSpeed set_linearPosition
       FleshlightLaunchFW12Cmd.Speed FleshlightLaunchFW12Cmd.Position
       FleshlightLaunchFW12Cmd.Id
       VectorSubcommand.Duration VectorSubcommand.Position].
  split; [reflexivity |]. split; [reflexivity |]. split; [| split].
  - exists (Qfloor (p * 100 / 99 * 90 + (99 - 90) / 2)).
    split; [reflexivity | apply NumberFacts.goal_bounds; exact Hp].
  - match goal with
    | |- Math_min (Math_max (Math_floor ?x) _) _ = NaN \/ _ =>
        destruct (isNaN x) eqn:Hx;
          [left; destruct x; try discriminate Hx; reflexivity
          | right; apply NumberFacts.clamp_floor_range; exact Hx]
    end.
  - intros l Hl Hd. rewrite Hl.
    change (mul (Fin p) (Fin 100)) with (Fin (p * 100)).
    change (sub (Fin (p * 100)) (Fin l)) with (Fin (p * 100 - l)).
    change (Math_abs (Fin (p * 100 - l))) with (Fin (Qabs (p * 100 - l))).
    apply NumberFacts.clamp_floor_range.
    assert (Hpd : (0 <= Qabs (p * 100 - l))%Q) by apply Qabs_nonneg.
    destruct Hd as [Hpos | ->].
    + apply NumberFacts.speed_not_NaN; try assumption.
      * destruct d as [| | | dq]; try discriminate Hpos; try reflexivity.
        unfold ltb in Hpos. unfold nonneg, leb. apply Qle_bool_iff.
        destruct (Qle_bool dq 0) eqn:Hle; [discriminate Hpos |].
        destruct (Qlt_le_dec 0 dq) as [Hlt | Hge]; [lra |].
        apply Qle_bool_iff in Hge. congruence.
      * left.
        destruct d as [| | | dq]; try discriminate Hpos; try reflexivity.
        apply NumberFacts.sign_pos. unfold ltb in Hpos.
        destruct (Qlt_le_dec 0 dq) as [Hlt | Hge]; [exact Hlt |].
        apply Qle_bool_iff in Hge. rewrite Hge in Hpos. discriminate Hpos.
    + rewrite (NumberFacts.pow_inf pow_approx); [reflexivity |]. right.
      change (mul NInf (Fin 90)) with NInf. unfold div.
      destruct (Qeq_bool (Qabs (p * 100 - l)) 0) eqn:Hz; [reflexivity |].
      apply Qeq_bool_neq in Hz.
      rewrite NumberFacts.sign_pos by lra. reflexivity.
Qed.

(** The bounds at 500 ms to the middle of the stroke from position 0. *)
Lemma HandleLinearCmd_safety_bounds_witness :
  (exists positionGoal : Z,
     _linearPosition
       (after (HandleLinearCmd PowRef.pow_ref (linear_cmd 500 0.5) linear_device))
     = Fin (inject_Z positionGoal)
     /\ 4 <= positionGoal <= 95)
  /\ (exists speed : Z,
        _linearSpeed
          (after (HandleLinearCmd PowRef.pow_ref (linear_cmd 500 0.5)
                    linear_device))
        = Fin (inject_Z speed)
        /\ 0 <= speed <= 95).
Proof.
  assert (Hp : (0 <= 0.5 <= 1)%Q) by (split; vm_compute; discriminate).
  destruct (HandleLinearCmd_safety_bounds PowRef.pow_ref
              PowRefFacts.pow_ref_nonneg (linear_cmd 500 0.5) linear_device
              (Fin 500) 0.5%Q eq_refl Hp)
    as (_ & _ & Hgoal & _ & Hspeed).
  split; [exact Hgoal |].
  apply (Hspeed 0%Q); [reflexivity | left; reflexivity].
Defined.

(** C1, as stated, fails at both ends of the position band and on the
    speed: from position 0, the target 1 gives the goal 95, above 94.5;
    the target 0 gives the goal 4, below 4.5; the duration 0 with the
    target 0, and the duration -500 with the target 0.5, give the speed
    NaN, which is in no interval. *)
Lemma HandleLinearCmd_bounds_counterexample :
  _linearPosition
    (after (HandleLinearCmd PowRef.pow_ref (linear_cmd 500 1) linear_device))
    = Fin 95
  /\ ltb (Fin 94.5) (Fin 95) = true
  /\ _linearPosition
       (after (HandleLinearCmd PowRef.pow_ref (linear_cmd 500 0) linear_device))
     = Fin 4
  /\ ltb (Fin 4) (Fin 4.5) = true
  /\ _linearSpeed
       (after (HandleLinearCmd PowRef.pow_ref (linear_cmd 0 0) linear_device))
     = NaN
  /\ _linearSpeed
       (after (HandleLinearCmd PowRef.pow_ref (linear_cmd (-500) 0.5)
                 linear_device))
     = NaN.
Proof. vm_compute. repeat split. Qed.



(** C3.  From position 0, the target 0 in 0 ms: the position delta is 0,
    the handler resolves with [Ok] and does not raise, and the speed it
    stores and emits is NaN.  The quotient 0/0 is NaN, and NaN passes the
    floor and the clamp that is there to keep the speed within 0 and 95;
    no zero-delta case is singled out. *)
Lemma HandleLinearCmd_zero_delta_zero_duration :
  Math_abs (sub (mul (Fin 0) (Fin 100)) (_linearPosition linear_device)) = Fin 0
  /\ settled (HandleLinearCmd PowRef.pow_ref (linear_cmd 0 0) linear_device)
     = Resolved (Ok 7)
  /\ _linearSpeed
       (after (HandleLinearCmd PowRef.pow_ref (linear_cmd 0 0) linear_device))
     = NaN
  /\ emitted (HandleLinearCmd PowRef.pow_ref (linear_cmd 0 0) linear_device)
     = [("linear", ArgLinear (Fin 4) NaN)].
Proof. vm_compute. repeat split. Qed.

(** ** Stop, vibrate and rotate *)

(** C4. On a vibrate-capable device that was last told to vibrate at 0.5,
    [StopDeviceCmd] emits "vibrate" with 0 and resolves with [Ok] of the
    request's Id, yet [_vibrateSpeed] still holds 0.5: the handler emits
    the stop and does not write the field, which
    [HandleSingleMotorVibrateCmd] writes whenever it emits "vibrate". *)
Theorem HandleStopDeviceCmd_stale_vibrateSpeed :
  let running :=
    after (HandleSingleMotorVibrateCmd
             (SingleMotorVibrateCmd.mk (Fin 0.5) 0 1) vibrate_device) in
  let stopped := HandleStopDeviceCmd (StopDeviceCmd.mk 2) running in
  MsgFuncs_has Kind.VibrateCmd running = true
  /\ settled stopped = Resolved (Ok 2)
  /\ emitted stopped = [("vibrate", ArgNumber (Fin 0))]
  /\ _vibrateSpeed (after stopped) = Fin 0.5.
Proof. vm_compute. repeat split. Qed.

(** C5. A [LinearCmd] whose [Vectors] has a length other than 1 resolves
    (it does not throw) with an [Error] of class [ERROR_DEVICE] carrying
    the request's Id; no field of the object changes and nothing is
    emitted. *)
Theorem HandleLinearCmd_vector_count
    (pow_approx : Q -> Q -> number) (aMsg : LinearCmd.t)
    (this : TestDeviceProtocol.t) :
  length (LinearCmd.Vectors aMsg) <> 1%nat ->
  HandleLinearCmd pow_approx aMsg this =
  (Resolved (Error "LinearCmd requires 1 vector for this device."
               ERROR_DEVICE (LinearCmd.Id aMsg)),
   this, []).
Proof.
  intros Hlen. unfold HandleLinearCmd.
  destruct (Nat.eqb_spec (length (LinearCmd.Vectors aMsg)) 1) as [Heq | _].
  - contradiction.
  - reflexivity.
Qed.

(** Two vectors on the linear device. *)
Lemma HandleLinearCmd_vector_count_witness :
  HandleLinearCmd PowRef.pow_ref
    (LinearCmd.mk [VectorSubcommand.mk (Fin 500) (Fin 0.5);
                   VectorSubcommand.mk (Fin 500) (Fin 1)] 0 3)
    linear_device =
  (Resolved (Error "LinearCmd requires 1 vector for this device."
               ERROR_DEVICE 3),
   linear_device, []).
Proof.
  apply (HandleLinearCmd_vector_count PowRef.pow_ref
           (LinearCmd.mk [VectorSubcommand.mk (Fin 500) (Fin 0.5);
                          VectorSubcommand.mk (Fin 500) (Fin 1)] 0 3)
           linear_device).
  simpl. lia.
Defined.

(** C6. A [VibrateCmd] with a non-empty [Speeds] is handled as the
    [SingleMotorVibrateCmd] built from the first entry's speed and the
    command's [DeviceIndex] and [Id]: [_vibrateSpeed] becomes that speed,
    one "vibrate" event carries it, the result is the forwarded handler's,
    and the entries after the first change nothing. *)
Theorem HandleVibrateCmd_first_speed
    (aMsg : VibrateCmd.t) (first : SpeedSubcommand.t)
    (rest : list SpeedSubcommand.t) (this : TestDeviceProtocol.t) :
  VibrateCmd.Speeds aMsg = first :: rest ->
  HandleVibrateCmd aMsg this =
    HandleSingleMotorVibrateCmd
      (SingleMotorVibrateCmd.mk (SpeedSubcommand.Speed first)
         (VibrateCmd.DeviceIndex aMsg) (VibrateCmd.Id aMsg)) this
  /\ _vibrateSpeed (after (HandleVibrateCmd aMsg this))
     = SpeedSubcommand.Speed first
  /\ emitted (HandleVibrateCmd aMsg this) =
       [("vibrate", ArgNumber (SpeedSubcommand.Speed first))]
  /\ settled (HandleVibrateCmd aMsg this) = Resolved (Ok (VibrateCmd.Id aMsg))
  /\ forall rest' : list SpeedSubcommand.t,
       HandleVibrateCmd
         (VibrateCmd.mk (first :: rest') (VibrateCmd.DeviceIndex aMsg)
            (VibrateCmd.Id aMsg)) this
       = HandleVibrateCmd aMsg this.
Proof.
  intros Hspeeds.
  assert (Heq : HandleVibrateCmd aMsg this =
    HandleSingleMotorVibrateCmd
      (SingleMotorVibrateCmd.mk (SpeedSubcommand.Speed first)
         (VibrateCmd.DeviceIndex aMsg) (VibrateCmd.Id aMsg)) this).
  { unfold HandleVibrateCmd. rewrite Hspeeds.
    rewrite DeviceFacts.HandleSingleMotorVibrateCmd_eq. reflexivity. }
  split; [exact Heq |].
  rewrite Heq, DeviceFacts.HandleSingleMotorVibrateCmd_eq.
  split; [reflexivity |]. split; [reflexivity |]. split; [reflexivity |].
  intros rest'. reflexivity.
Qed.

(** Two motors at 0.3 and 0.9: the vibrate speed becomes 0.3. *)
Lemma HandleVibrateCmd_first_speed_witness :
  _vibrateSpeed
    (after (HandleVibrateCmd
              (VibrateCmd.mk [SpeedSubcommand.mk 0 (Fin 0.3);
                              SpeedSubcommand.mk 1 (Fin 0.9)] 0 5)
              vibrate_device)) = Fin 0.3.
Proof.
  exact (proj1 (proj2
    (HandleVibrateCmd_first_speed
       (VibrateCmd.mk [SpeedSubcommand.mk 0 (Fin 0.3);
                       SpeedSubcommand.mk 1 (Fin 0.9)] 0 5)
       (SpeedSubcommand.mk 0 (Fin 0.3))
       [SpeedSubcommand.mk 1 (Fin 0.9)]
       vibrate_device eq_refl))).
Defined.

(** C7. For every combination of the three capability flags the
    constructor registers the message classes of the set flags, and
    [MessageSpecifications] is the one set chosen by the priority
    vibrate, then linear, then rotate, then nothing. *)
Theorem MessageSpecifications_priority (name : string) (v l r : bool) :
  exists this : TestDeviceProtocol.t,
    constructor name TestDeviceImpl v l r = inr this
    /\ MsgFuncs_has Kind.VibrateCmd this = v
    /\ MsgFuncs_has Kind.LinearCmd this = l
    /\ MsgFuncs_has Kind.RotateCmd this = r
    /\ MessageSpecifications this =
       if v then
         [ ("VibrateCmd", [("FeatureCount", 2)]);
           ("SingleMotorVibrateCmd", []);
           ("StopDeviceCmd", []) ]
       else if l then
         [ ("LinearCmd", [("FeatureCount", 1)]);
           ("FleshlightLaunchFW12Cmd", []);
           ("StopDeviceCmd", []) ]
       else if r then
         [ ("RotateCmd", [("FeatureCount", 1)]);
           ("StopDeviceCmd", []) ]
       else [].
Proof.
  destruct (DeviceFacts.constructor_registers name v l r)
    as (this & Hctor & _ & _ & Hv & _ & Hl & Hr).
  exists this. repeat (split; [assumption |]).
  unfold MessageSpecifications. rewrite Hv, Hl, Hr. reflexivity.
Qed.

(** C10. A [VibrateCmd] with an empty [Speeds] and a [RotateCmd] with an
    empty [Rotations] are not checked for length: reading the first
    entry's property throws a TypeError, so the handler's promise is
    rejected, it resolves with neither [Ok] nor [Error], no field is
    written and nothing is emitted. *)
Theorem empty_sequence_faults (DeviceIndex Id : Z) (this : TestDeviceProtocol.t) :
  HandleVibrateCmd (VibrateCmd.mk [] DeviceIndex Id) this =
    (Rejected (TypeError "Speed"), this, [])
  /\ HandleRotateCmd (RotateCmd.mk [] DeviceIndex Id) this =
    (Rejected (TypeError "Speed"), this, [])
  /\ (forall response : ButtplugMessage,
        settled (HandleVibrateCmd (VibrateCmd.mk [] DeviceIndex Id) this)
          <> Resolved response
        /\ settled (HandleRotateCmd (RotateCmd.mk [] DeviceIndex Id) this)
          <> Resolved response).
Proof.
  assert (Hv : HandleVibrateCmd (VibrateCmd.mk [] DeviceIndex Id) this =
               (Rejected (TypeError "Speed"), this, [])).
  { unfold HandleVibrateCmd. simpl VibrateCmd.Speeds.
    apply bind_rejected. apply first_element_nil. }
  assert (Hr : HandleRotateCmd (RotateCmd.mk [] DeviceIndex Id) this =
               (Rejected (TypeError "Speed"), this, [])).
  { unfold HandleRotateCmd. simpl RotateCmd.Rotations.
    apply bind_rejected. apply first_element_nil. }
  split; [exact Hv |]. split; [exact Hr |].
  intros response. rewrite Hv, Hr. split; discriminate.
Qed.

(** ** ButtplugBrowserClient *)

Import ButtplugBrowserClient.

(** C8. On a client that is not connected, [Send] is rejected with the
    error "ButtplugClient not connected" at once: no message is handed to
    the server, nothing is emitted or parsed, and [_connected] and
    [_server] are as before. *)
Theorem Send_not_connected {ButtplugServer Message : Type}
    (SendMessage : ButtplugServer -> Message -> ButtplugServer * Promise Message)
    (aMsg : Message) (this : ButtplugBrowserClient.t ButtplugServer) :
  Connected this = false ->
  Send SendMessage aMsg this =
  (Rejected (JsError "ButtplugClient not connected"), this, []).
Proof.
  intros Hdisc. unfold Send, bind, get.
  rewrite Hdisc. reflexivity.
Qed.

(** [Send] on a freshly constructed client. *)
Lemma Send_not_connected_witness :
  Send loopback_SendMessage (Ok 1) (constructor (ButtplugServer := nat)) =
  (Rejected (JsError "ButtplugClient not connected"), constructor, []).
Proof.
  apply (Send_not_connected loopback_SendMessage (Ok 1) constructor).
  reflexivity.
Defined.

(** On a connected client [Send] hands the message to the server and
    parses the answer. *)
Example Send_connected :
  Send loopback_SendMessage (Ok 1) connected_client =
  (Resolved tt, {| _connected := true; _server := Some 1%nat |},
   [CallSendMessage (Ok 1); CallParseMessages [Ok 1]]).
Proof. reflexivity. Qed.

(** C9, as the code has it: [Disconnect] on a connected client clears
    [_connected] and [_server] and emits "close" once; on a client that is
    not connected it returns at once, changes nothing and emits nothing;
    so a second [Disconnect] in a row emits nothing and the two calls
    together emit "close" exactly once when the client was connected. *)
Theorem Disconnect_emits_close_once {ButtplugServer Message : Type}
    (this : ButtplugBrowserClient.t ButtplugServer) :
  Disconnect (Message := Message) this =
    (if Connected this
     then (Resolved tt, {| _connected := false; _server := None |},
           [Emit "close"])
     else (Resolved tt, this, []))
  /\ Disconnect (Message := Message)
       (after (Disconnect (Message := Message) this)) =
     (Resolved tt, after (Disconnect (Message := Message) this), [])
  /\ emit_count "close"
       (emitted (Disconnect (Message := Message) this)
        ++ emitted (Disconnect (Message := Message)
                      (after (Disconnect (Message := Message) this))))
     = if Connected this then 1%nat else 0%nat.
Proof.
  destruct this as [connected server].
  destruct connected; repeat split.
Qed.

(** C9, as stated, fails on the event's name: a connected client that
    disconnects emits "close", and "closed" not once. *)
Lemma Disconnect_never_emits_closed :
  Connected connected_client = true
  /\ emitted (Disconnect (Message := ButtplugMessage) connected_client)
     = [Emit "close"]
  /\ emit_count "closed"
       (emitted (Disconnect (Message := ButtplugMessage) connected_client))
     = 0%nat.
Proof. repeat split. Qed.

(** * Further properties *)

(** ** More on TestDeviceProtocol *)

Module HandlerFacts.
Import Calls.

Lemma same_dispatch_refl (a : TestDeviceProtocol.t) : same_dispatch a a.
Proof. repeat split. Qed.

Lemma same_dispatch_trans (a b c : TestDeviceProtocol.t) :
  same_dispatch a b -> same_dispatch b c -> same_dispatch a c.
Proof.
  intros (H1 & H2 & H3 & H4 & H5) (G1 & G2 & G3 & G4 & G5).
  repeat split; congruence.
Qed.

(** The linear handler on no vector or on two and more. *)
Lemma HandleLinearCmd_not_one (pow_approx : Q -> Q -> number)
    (vs : list VectorSubcommand.t) (DeviceIndex Id : Z)
    (this : TestDeviceProtocol.t) :
  vs = [] \/ (exists v v' vs', vs = v :: v' :: vs') ->
  HandleLinearCmd pow_approx (LinearCmd.mk vs DeviceIndex Id) this =
  (Resolved (Error "LinearCmd requires 1 vector for this device."
               ERROR_DEVICE Id), this, []).
Proof. intros [-> | (v & v' & vs' & ->)]; reflexivity. Qed.

(** Every outcome of a handler, by shape: it resolves with [Ok] after
    at most one event, or resolves with [Error] or is rejected with
    nothing written and nothing emitted. *)
Lemma invoke_shape (pow_approx : Q -> Q -> number) (r : Request)
    (this : TestDeviceProtocol.t) :
  (exists Id this' evs,
     invoke pow_approx r this = (Resolved (Ok Id), this', evs)
     /\ same_dispatch this' this /\ (length evs <= 1)%nat)
  \/ (exists msg cls Id,
        invoke pow_approx r this = (Resolved (Error msg cls Id), this, []))
  \/ (exists e, invoke pow_approx r this = (Rejected e, this, [])).
Proof.
  destruct r as [m | m | m | m | m | m]; cbn [invoke].
  - left. exists (StopDeviceCmd.Id m), this.
    unfold HandleStopDeviceCmd, bind, get, emit, ret.
    destruct (MsgFuncs_has Kind.VibrateCmd this);
      [| destruct (MsgFuncs_has Kind.LinearCmd this)];
      eexists; (split; [reflexivity |]); split;
      try apply same_dispatch_refl; simpl; lia.
  - left. do 3 eexists. split; [reflexivity |].
    split; [repeat split | simpl; lia].
  - destruct m as [[| s ss] di id].
    + right. right. eexists. reflexivity.
    + left. do 3 eexists. split; [reflexivity |].
      split; [repeat split | simpl; lia].
  - destruct m as [[| s ss] di id].
    + right. right. eexists. reflexivity.
    + left. do 3 eexists. split; [reflexivity |].
      split; [repeat split | simpl; lia].
  - left. do 3 eexists. split; [reflexivity |].
    split; [repeat split | simpl; lia].
  - destruct m as [[| v [| v' vs]] di id].
    + right. left. do 3 eexists. apply HandleLinearCmd_not_one. left. reflexivity.
    + left. do 3 eexists.
      rewrite (DeviceFacts.HandleLinearCmd_one_vector pow_approx
                 (LinearCmd.mk [v] di id) v this eq_refl).
      rewrite DeviceFacts.HandleFleshlightLaunchFW12Cmd_eq.
      split; [reflexivity |]. split; [repeat split | simpl; lia].
    + right. left. do 3 eexists. apply HandleLinearCmd_not_one.
      right. do 3 eexists. reflexivity.
Qed.
(** A sequence of requests leaves the dispatch table alone and emits at
    most one event per request. *)
Lemma invoke_all_frame (pow_approx : Q -> Q -> number)
    (rs : list Request) (this : TestDeviceProtocol.t) :
  same_dispatch (invoke_all pow_approx rs this).1 this
  /\ (length (invoke_all pow_approx rs this).2 <= length rs)%nat.
Proof.
  revert this. induction rs as [| r rs IH]; intros this.
  - split; [apply same_dispatch_refl | simpl; lia].
  - cbn [invoke_all fst snd].
    destruct (IH (after (invoke pow_approx r this))) as [Hd Hl].
    assert (Hstep : same_dispatch (after (invoke pow_approx r this)) this
                    /\ (length (emitted (invoke pow_approx r this)) <= 1)%nat).
    { destruct (invoke_shape pow_approx r this)
        as [(Id & this' & evs & -> & Hs & Hn)
           | [(msg & cls & Id & ->) | (e & ->)]].
      - split; assumption.
      - split; [apply same_dispatch_refl | simpl; lia].
      - split; [apply same_dispatch_refl | simpl; lia]. }
    split.
    + eapply same_dispatch_trans; [exact Hd | apply Hstep].
    + rewrite length_app. simpl length. lia.
Qed.

(** One well-formed linear command, from a finite last position. *)
Lemma HandleLinearCmd_well_formed (pow_approx : Q -> Q -> number)
    (pow_approx_nonneg :
       forall b e : Q, (0 < b)%Q -> nonneg (pow_approx b e) = true)
    (aMsg : LinearCmd.t) (this : TestDeviceProtocol.t) (dq p l : Q) :
  LinearCmd.Vectors aMsg = [VectorSubcommand.mk (Fin dq) (Fin p)] ->
  (0 < dq)%Q -> (0 <= p <= 1)%Q ->
  _linearPosition this = Fin l ->
  exists speed positionGoal : Z,
    HandleLinearCmd pow_approx aMsg this =
      (Resolved (Ok (LinearCmd.Id aMsg)),
       set_linearSpeed (Fin (inject_Z speed))
         (set_linearPosition (Fin (inject_Z positionGoal)) this),
       [("linear", ArgLinear (Fin (inject_Z positionGoal))
                     (Fin (inject_Z speed)))])
    /\ 0 <= speed <= 95
    /\ 4 <= positionGoal <= 95.
Proof.
  intros Hv Hd Hp Hl.
  rewrite (DeviceFacts.HandleLinearCmd_one_vector _ _ _ _ Hv).
  rewrite Hl. simpl VectorSubcommand.Duration. simpl VectorSubcommand.Position.
  change (mul (Fin p) (Fin 100)) with (Fin (p * 100)).
  change (sub (Fin (p * 100)) (Fin l)) with (Fin (p * 100 - l)).
  change (Math_abs (Fin (p * 100 - l))) with (Fin (Qabs (p * 100 - l))).
  destruct (NumberFacts.clamp_floor_range
              (mul (Fin 25000)
                 (Math_pow pow_approx
                    (div (mul (Fin dq) (Fin 90)) (Fin (Qabs (p * 100 - l))))
                    (Fin (-1.05)))))
    as (speed & Hspeed & Hrange).
  { apply NumberFacts.speed_not_NaN; try assumption.
    - apply Qabs_nonneg.
    - unfold nonneg, leb. apply Qle_bool_iff. lra.
    - left. apply NumberFacts.sign_pos. exact Hd. }
  rewrite Hspeed.
  exists speed, (Qfloor (p * 100 / 99 * 90 + (99 - 90) / 2)).
  split; [reflexivity |]. split; [exact Hrange |].
  apply NumberFacts.goal_bounds. exact Hp.
Qed.

(** The position goal of a one-vector command with a finite target, as
    the exact arithmetic gives it. *)
Lemma HandleLinearCmd_goal (pow_approx : Q -> Q -> number)
    (aMsg : LinearCmd.t) (this : TestDeviceProtocol.t) (d : number) (p : Q) :
  LinearCmd.Vectors aMsg = [VectorSubcommand.mk d (Fin p)] ->
  _linearPosition (after (HandleLinearCmd pow_approx aMsg this))
  = Fin (inject_Z (Qfloor (p * 100 / 99 * 90 + 4.5))).
Proof.
  intros Hv.
  rewrite (DeviceFacts.HandleLinearCmd_CommandTranslator _ _ _ _ Hv).
  reflexivity.
Qed.

Lemma goal_expr_spec (p : Q) :
  (p * 100 / 99 * 90 + 4.5 == p * (1000 # 11) + (9 # 2))%Q.
Proof. field. Qed.
End HandlerFacts.

Import Calls.

(** X1. The dispatch table the constructor builds, entry by entry: the
    stop handler always, each other class with its own handler exactly
    when its capability flag is set; and every motion field starts at
    zero. *)
Theorem constructor_dispatch_table (name : string) (v l r : bool) :
  exists this : TestDeviceProtocol.t,
    TestDeviceProtocol.constructor name TestDeviceImpl v l r = inr this
    /\ MsgFuncs this !! Kind.StopDeviceCmd = Some Handler.HandleStopDeviceCmd
    /\ MsgFuncs this !! Kind.SingleMotorVibrateCmd =
       (if v then Some Handler.HandleSingleMotorVibrateCmd else None)
    /\ MsgFuncs this !! Kind.VibrateCmd =
       (if v then Some Handler.HandleVibrateCmd else None)
    /\ MsgFuncs this !! Kind.FleshlightLaunchFW12Cmd =
       (if l then Some Handler.HandleFleshlightLaunchFW12Cmd else None)
    /\ MsgFuncs this !! Kind.LinearCmd =
       (if l then Some Handler.HandleLinearCmd else None)
    /\ MsgFuncs this !! Kind.RotateCmd =
       (if r then Some Handler.HandleRotateCmd else None)
    /\ (_linearSpeed this, _linearPosition this, _vibrateSpeed this,
        _rotateSpeed this, _rotateClockwise this)
       = (Fin 0, Fin 0, Fin 0, Fin 0, false)
    /\ (_shouldVibrate this, _shouldLinear this, _shouldRotate this) = (v, l, r).
Proof.
  destruct v, l, r; eexists; (split; [reflexivity |]);
    repeat split; vm_compute; reflexivity.
Qed.

(** X2. The constructor returns an object exactly when the device
    implementation is a [TestDeviceImpl], and throws the
    ButtplugDeviceException exactly when it is not, whatever the flags. *)
Theorem constructor_requires_TestDeviceImpl
    (name : string) (deviceImpl : IButtplugDeviceImpl) (v l r : bool) :
  ((exists this, TestDeviceProtocol.constructor name deviceImpl v l r = inr this)
   <-> deviceImpl = TestDeviceImpl)
  /\ (TestDeviceProtocol.constructor name deviceImpl v l r =
        inl (ButtplugDeviceException
               "TestDeviceProtocol can only be constructed with a TestDeviceImpl")
      <-> deviceImpl <> TestDeviceImpl).
Proof.
  destruct deviceImpl.
  - split; split.
    + reflexivity.
    + intros _. eexists. reflexivity.
    + intros H. discriminate H.
    + intros H. contradiction H. reflexivity.
  - split; split.
    + intros [this H]. discriminate H.
    + discriminate.
    + discriminate.
    + intros _. reflexivity.
Qed.

(** X3. No sequence of requests changes the name, the capability flags or
    the dispatch table, so [MessageSpecifications] answers the same before
    and after; and the requests emit at most one event each. *)
Theorem invoke_all_keeps_dispatch (pow_approx : Q -> Q -> number)
    (rs : list Request) (this : TestDeviceProtocol.t) :
  same_dispatch (invoke_all pow_approx rs this).1 this
  /\ MessageSpecifications (invoke_all pow_approx rs this).1
     = MessageSpecifications this
  /\ (length (invoke_all pow_approx rs this).2 <= length rs)%nat.
Proof.
  destruct (HandlerFacts.invoke_all_frame pow_approx rs this) as [Hd Hl].
  split; [exact Hd |]. split; [| exact Hl].
  destruct Hd as (_ & _ & _ & _ & Hm).
  unfold MessageSpecifications, MsgFuncs_has. rewrite Hm. reflexivity.
Qed.

(** X4. Each handler writes the fields of its own capability only: the
    stop handler none, the vibrate handlers [_vibrateSpeed], the rotate
    handler the two rotate fields, the linear handlers the two linear
    fields. *)
Theorem handlers_write_own_capability (pow_approx : Q -> Q -> number)
    (r : Request) (this : TestDeviceProtocol.t) :
  match r with
  | StopDevice _ => after (invoke pow_approx r this) = this
  | SingleMotorVibrate _ | Vibrate _ =>
      exists s, after (invoke pow_approx r this) = set_vibrateSpeed s this
  | Rotate _ =>
      exists s c,
        after (invoke pow_approx r this)
        = set_rotateClockwise c (set_rotateSpeed s this)
  | FleshlightLaunchFW12 _ | Linear _ =>
      exists s p,
        after (invoke pow_approx r this)
        = set_linearSpeed s (set_linearPosition p this)
  end.
Proof.
  destruct r as [m | m | m | m | m | m]; cbn [invoke].
  - apply DeviceFacts.HandleStopDeviceCmd_state.
  - eexists. reflexivity.
  - destruct m as [[| s ss] di id].
    + exists (_vibrateSpeed this). destruct this; reflexivity.
    + eexists. reflexivity.
  - destruct m as [[| s ss] di id].
    + exists (_rotateSpeed this), (_rotateClockwise this).
      destruct this; reflexivity.
    + do 2 eexists. reflexivity.
  - do 2 eexists. reflexivity.
  - destruct m as [[| v [| v' vs]] di id].
    + exists (_linearSpeed this), (_linearPosition this).
      destruct this; reflexivity.
    + rewrite (DeviceFacts.HandleLinearCmd_one_vector pow_approx
                 (LinearCmd.mk [v] di id) v this eq_refl).
      do 2 eexists. reflexivity.
    + exists (_linearSpeed this), (_linearPosition this).
      destruct this; reflexivity.
Qed.

(** X5. A [RotateCmd] with a non-empty [Rotations] takes the speed and
    the direction of the first entry, emits them on the "vibrate" channel
    as [{speed, clockwise}], resolves with [Ok] of the request's Id, and
    ignores the entries after the first. *)
Theorem HandleRotateCmd_first_rotation
    (aMsg : RotateCmd.t) (first : RotateSubcommand.t)
    (rest : list RotateSubcommand.t) (this : TestDeviceProtocol.t) :
  RotateCmd.Rotations aMsg = first :: rest ->
  HandleRotateCmd aMsg this =
    (Resolved (Ok (RotateCmd.Id aMsg)),
     set_rotateClockwise (RotateSubcommand.Clockwise first)
       (set_rotateSpeed (RotateSubcommand.Speed first) this),
     [("vibrate", ArgRotate (RotateSubcommand.Speed first)
                    (RotateSubcommand.Clockwise first))]).
Proof.
  intros Hr. unfold HandleRotateCmd. rewrite Hr. reflexivity.
Qed.

(** Two rotations on the rotate-only device: the first one counts. *)
Lemma HandleRotateCmd_first_rotation_witness :
  HandleRotateCmd
    (RotateCmd.mk [RotateSubcommand.mk (Fin 0.4) true;
                   RotateSubcommand.mk (Fin 0.8) false] 0 9)
    rotate_device =
  (Resolved (Ok 9),
   set_rotateClockwise true (set_rotateSpeed (Fin 0.4) rotate_device),
   [("vibrate", ArgRotate (Fin 0.4) true)]).
Proof.
  exact (HandleRotateCmd_first_rotation
           (RotateCmd.mk [RotateSubcommand.mk (Fin 0.4) true;
                          RotateSubcommand.mk (Fin 0.8) false] 0 9)
           (RotateSubcommand.mk (Fin 0.4) true)
           [RotateSubcommand.mk (Fin 0.8) false]
           rotate_device eq_refl).
Defined.

(** X6. What [StopDeviceCmd] does on a device built with flags
    [v], [l], [r], after any sequence of requests: it writes nothing and
    resolves with [Ok]; it emits "vibrate" with 0 if [v], else "linear"
    with the position and speed the device holds if [l], else nothing, so
    on a rotate-only device a stop is not signalled at all. *)
Theorem HandleStopDeviceCmd_after_any_requests
    (pow_approx : Q -> Q -> number) (name : string) (v l r : bool)
    (rs : list Request) (stop : StopDeviceCmd.t) :
  exists this : TestDeviceProtocol.t,
    TestDeviceProtocol.constructor name TestDeviceImpl v l r = inr this
    /\ HandleStopDeviceCmd stop (invoke_all pow_approx rs this).1 =
       (Resolved (Ok (StopDeviceCmd.Id stop)),
        (invoke_all pow_approx rs this).1,
        if v then [("vibrate", ArgNumber (Fin 0))]
        else if l then
          [("linear",
            ArgLinear (_linearPosition (invoke_all pow_approx rs this).1)
              (_linearSpeed (invoke_all pow_approx rs this).1))]
        else []).
Proof.
  destruct (DeviceFacts.constructor_registers name v l r)
    as (this & Hctor & _ & _ & Hv & _ & Hl & _).
  exists this. split; [exact Hctor |].
  destruct (HandlerFacts.invoke_all_frame pow_approx rs this) as [Hd _].
  destruct Hd as (_ & _ & _ & _ & Hm).
  set (this' := (invoke_all pow_approx rs this).1) in *.
  assert (Hv' : MsgFuncs_has Kind.VibrateCmd this' = v)
    by (unfold MsgFuncs_has in *; rewrite Hm; exact Hv).
  assert (Hl' : MsgFuncs_has Kind.LinearCmd this' = l)
    by (unfold MsgFuncs_has in *; rewrite Hm; exact Hl).
  unfold HandleStopDeviceCmd, bind, get. rewrite Hv', Hl'.
  destruct v; [reflexivity |]. destruct l; reflexivity.
Qed.

(** ** More on the linear translation *)

(** X7. The position goal of a one-vector [LinearCmd] depends on the
    target alone: two commands with the same [Position] store the same
    [_linearPosition], whatever their durations (NaN included), whatever
    the two devices hold and whatever the power function approximates. *)
Theorem HandleLinearCmd_goal_ignores_duration
    (pow_approx1 pow_approx2 : Q -> Q -> number) (aMsg1 aMsg2 : LinearCmd.t)
    (v1 v2 : VectorSubcommand.t) (this1 this2 : TestDeviceProtocol.t) :
  LinearCmd.Vectors aMsg1 = [v1] ->
  LinearCmd.Vectors aMsg2 = [v2] ->
  VectorSubcommand.Position v1 = VectorSubcommand.Position v2 ->
  _linearPosition (after (HandleLinearCmd pow_approx1 aMsg1 this1))
  = _linearPosition (after (HandleLinearCmd pow_approx2 aMsg2 this2)).
Proof.
  intros Hv1 Hv2 Hp.
  rewrite (DeviceFacts.HandleLinearCmd_one_vector _ _ _ _ Hv1).
  rewrite (DeviceFacts.HandleLinearCmd_one_vector _ _ _ _ Hv2).
  rewrite !DeviceFacts.HandleFleshlightLaunchFW12Cmd_eq.
  cbn [after fst snd _linearPosition set_linearSpeed set_linearPosition
       FleshlightLaunchFW12Cmd.Position].
  rewrite Hp. reflexivity.
Qed.

(** The target 0.5 with a NaN duration after a stroke, and in 500 ms on
    the fresh device. *)
Lemma HandleLinearCmd_goal_ignores_duration_witness :
  _linearPosition
    (after (HandleLinearCmd PowRef.pow_ref
              (LinearCmd.mk [VectorSubcommand.mk NaN (Fin 0.5)] 0 7)
              (after (HandleLinearCmd PowRef.pow_ref (linear_cmd 300 1)
                        linear_device))))
  = _linearPosition
      (after (HandleLinearCmd PowRef.pow_ref (linear_cmd 500 0.5)
                linear_device)).
Proof.
  exact (HandleLinearCmd_goal_ignores_duration PowRef.pow_ref PowRef.pow_ref
           (LinearCmd.mk [VectorSubcommand.mk NaN (Fin 0.5)] 0 7)
           (linear_cmd 500 0.5)
           (VectorSubcommand.mk NaN (Fin 0.5))
           (VectorSubcommand.mk (Fin 500) (Fin 0.5))
           (after (HandleLinearCmd PowRef.pow_ref (linear_cmd 300 1)
                     linear_device))
           linear_device eq_refl eq_refl eq_refl).
Defined.

(** X8. The position goal is monotone in the target: a larger [Position]
    never gives a smaller goal, whatever the durations and the devices. *)
Theorem HandleLinearCmd_goal_monotone
    (pow_approx : Q -> Q -> number) (aMsg1 aMsg2 : LinearCmd.t)
    (this1 this2 : TestDeviceProtocol.t) (d1 d2 : number) (p1 p2 : Q) :
  LinearCmd.Vectors aMsg1 = [VectorSubcommand.mk d1 (Fin p1)] ->
  LinearCmd.Vectors aMsg2 = [VectorSubcommand.mk d2 (Fin p2)] ->
  (p1 <= p2)%Q ->
  leb (_linearPosition (after (HandleLinearCmd pow_approx aMsg1 this1)))
      (_linearPosition (after (HandleLinearCmd pow_approx aMsg2 this2)))
  = true.
Proof.
  intros Hv1 Hv2 Hle.
  rewrite (HandlerFacts.HandleLinearCmd_goal _ _ _ d1 _ Hv1).
  rewrite (HandlerFacts.HandleLinearCmd_goal _ _ _ d2 _ Hv2).
  unfold leb. rewrite NumberFacts.Qle_bool_inject_Z.
  apply Z.leb_le. apply Qfloor_resp_le.
  rewrite !HandlerFacts.goal_expr_spec. lra.
Qed.

(** The targets 0.2 and 0.7 from the same device. *)
Lemma HandleLinearCmd_goal_monotone_witness :
  leb (_linearPosition
         (after (HandleLinearCmd PowRef.pow_ref (linear_cmd 500 0.2)
                   linear_device)))
      (_linearPosition
         (after (HandleLinearCmd PowRef.pow_ref (linear_cmd 100 0.7)
                   linear_device)))
  = true.
Proof.
  apply (HandleLinearCmd_goal_monotone PowRef.pow_ref
           (linear_cmd 500 0.2) (linear_cmd 100 0.7)
           linear_device linear_device (Fin 500) (Fin 100) 0.2%Q 0.7%Q).
  - reflexivity.
  - reflexivity.
  - vm_compute. discriminate.
Defined.

(** X9. Whatever the vector holds and whatever the device holds, the
    speed a one-vector [LinearCmd] stores is NaN or an integer from 0 to
    95: the clamp catches everything but NaN. *)
Theorem HandleLinearCmd_speed_NaN_or_clamped
    (pow_approx : Q -> Q -> number) (aMsg : LinearCmd.t)
    (v : VectorSubcommand.t) (this : TestDeviceProtocol.t) :
  LinearCmd.Vectors aMsg = [v] ->
  _linearSpeed (after (HandleLinearCmd pow_approx aMsg this)) = NaN
  \/ exists speed : Z,
       _linearSpeed (after (HandleLinearCmd pow_approx aMsg this))
       = Fin (inject_Z speed)
       /\ 0 <= speed <= 95.
Proof.
  intros Hv.
  rewrite (DeviceFacts.HandleLinearCmd_one_vector _ _ _ _ Hv).
  rewrite DeviceFacts.HandleFleshlightLaunchFW12Cmd_eq.
  cbn [after fst snd _linearSpeed set_linearSpeed FleshlightLaunchFW12Cmd.Speed].
  match goal with
  | |- Math_min (Math_max (Math_floor ?x) _) _ = NaN \/ _ =>
      destruct (isNaN x) eqn:Hx
  end.
  - left.
    match goal with
    | |- Math_min (Math_max (Math_floor ?x) _) _ = NaN =>
        destruct x; try discriminate Hx; reflexivity
    end.
  - right. apply NumberFacts.clamp_floor_range. exact Hx.
Qed.

(** An infinite target with a NaN duration on the linear device. *)
Lemma HandleLinearCmd_speed_NaN_or_clamped_witness :
  _linearSpeed
    (after (HandleLinearCmd PowRef.pow_ref
              (LinearCmd.mk [VectorSubcommand.mk NaN PInf] 0 7)
              linear_device)) = NaN
  \/ exists speed : Z,
       _linearSpeed
         (after (HandleLinearCmd PowRef.pow_ref
                   (LinearCmd.mk [VectorSubcommand.mk NaN PInf] 0 7)
                   linear_device))
       = Fin (inject_Z speed)
       /\ 0 <= speed <= 95.
Proof.
  exact (HandleLinearCmd_speed_NaN_or_clamped PowRef.pow_ref
           (LinearCmd.mk [VectorSubcommand.mk NaN PInf] 0 7)
           (VectorSubcommand.mk NaN PInf) linear_device eq_refl).
Defined.

(** X10. NaN in, NaN out, and still [Ok]: when the [Duration] or the
    [Position] of the one vector is NaN, or the device's last position is
    NaN, the handler resolves with [Ok] all the same and the speed it
    stores and emits is NaN. *)
Theorem HandleLinearCmd_NaN_input
    (pow_approx : Q -> Q -> number) (aMsg : LinearCmd.t)
    (v : VectorSubcommand.t) (this : TestDeviceProtocol.t) :
  LinearCmd.Vectors aMsg = [v] ->
  VectorSubcommand.Duration v = NaN
  \/ VectorSubcommand.Position v = NaN
  \/ _linearPosition this = NaN ->
  settled (HandleLinearCmd pow_approx aMsg this)
    = Resolved (Ok (LinearCmd.Id aMsg))
  /\ _linearSpeed (after (HandleLinearCmd pow_approx aMsg this)) = NaN
  /\ exists positionGoal : number,
       emitted (HandleLinearCmd pow_approx aMsg this)
       = [("linear", ArgLinear positionGoal NaN)].
Proof.
  intros Hv Hnan.
  rewrite (DeviceFacts.HandleLinearCmd_one_vector _ _ _ _ Hv).
  rewrite DeviceFacts.HandleFleshlightLaunchFW12Cmd_eq.
  cbn [settled after emitted fst snd _linearSpeed set_linearSpeed
       FleshlightLaunchFW12Cmd.Speed FleshlightLaunchFW12Cmd.Position
       FleshlightLaunchFW12Cmd.Id].
  assert (Hspeed :
    Math_min
      (Math_max
         (Math_floor
            (mul (Fin 25000)
               (Math_pow pow_approx
                  (div (mul (VectorSubcommand.Duration v) (Fin 90))
                     (Math_abs
                        (sub (mul (VectorSubcommand.Position v) (Fin 100))
                           (_linearPosition this))))
                  (Fin (-1.05)))))
         (Fin 0))
      (Fin 95) = NaN).
  { assert (Hbase :
      div (mul (VectorSubcommand.Duration v) (Fin 90))
        (Math_abs
           (sub (mul (VectorSubcommand.Position v) (Fin 100))
              (_linearPosition this))) = NaN).
    { destruct Hnan as [-> | [-> | ->]].
      - reflexivity.
      - change (mul NaN (Fin 100)) with NaN.
        change (sub NaN (_linearPosition this)) with NaN.
        change (Math_abs NaN) with NaN.
        destruct (mul (VectorSubcommand.Duration v) (Fin 90)); reflexivity.
      - assert (Hsub : sub (mul (VectorSubcommand.Position v) (Fin 100)) NaN
                       = NaN)
          by (destruct (mul (VectorSubcommand.Position v) (Fin 100));
              reflexivity).
        rewrite Hsub. change (Math_abs NaN) with NaN.
        destruct (mul (VectorSubcommand.Duration v) (Fin 90)); reflexivity. }
    rewrite Hbase. reflexivity. }
  split; [reflexivity |]. split; [exact Hspeed |].
  eexists. rewrite Hspeed. reflexivity.
Qed.

(** A NaN duration towards the target 0.5 on the linear device. *)
Lemma HandleLinearCmd_NaN_input_witness :
  _linearSpeed
    (after (HandleLinearCmd PowRef.pow_ref
              (LinearCmd.mk [VectorSubcommand.mk NaN (Fin 0.5)] 0 7)
              linear_device)) = NaN.
Proof.
  exact (proj1 (proj2
    (HandleLinearCmd_NaN_input PowRef.pow_ref
       (LinearCmd.mk [VectorSubcommand.mk NaN (Fin 0.5)] 0 7)
       (VectorSubcommand.mk NaN (Fin 0.5)) linear_device eq_refl
       (or_introl eq_refl)))).
Defined.

(** X11. An invariant of well-behaved use.  From a device whose last
    position is finite, any sequence of linear commands with one vector,
    a duration above zero and a target between 0 and 1 emits one "linear"
    event per command, each with an integer position from 4 to 95 and an
    integer speed from 0 to 95, and leaves a finite last position. *)
Theorem well_formed_linear_sequence_safe
    (pow_approx : Q -> Q -> number)
    (pow_approx_nonneg :
       forall b e : Q, (0 < b)%Q -> nonneg (pow_approx b e) = true)
    (rs : list Request) (this : TestDeviceProtocol.t) (l : Q) :
  _linearPosition this = Fin l ->
  Forall well_formed_linear rs ->
  Forall safe_linear_event (invoke_all pow_approx rs this).2
  /\ length (invoke_all pow_approx rs this).2 = length rs
  /\ exists l' : Q, _linearPosition (invoke_all pow_approx rs this).1 = Fin l'.
Proof.
  intros Hl Hwf. revert this l Hl.
  induction Hwf as [| r rs Hr Hrs IH]; intros this l Hl.
  - split; [constructor |]. split; [reflexivity |]. exists l. exact Hl.
  - destruct r as [m | m | m | m | m | m]; try contradiction Hr.
    destruct Hr as (dq & p & Hv & Hd & Hp).
    destruct (HandlerFacts.HandleLinearCmd_well_formed pow_approx
                pow_approx_nonneg m this dq p l Hv Hd Hp Hl)
      as (speed & goal & Heq & Hs & Hg).
    cbn [invoke_all invoke fst snd]. rewrite Heq.
    cbn [after emitted fst snd].
    destruct (IH (set_linearSpeed (Fin (inject_Z speed))
                    (set_linearPosition (Fin (inject_Z goal)) this))
                 (inject_Z goal) eq_refl) as (Hev & Hlen & Hpos).
    split; [| split].
    + constructor; [| exact Hev].
      exists goal, speed. split; [reflexivity |]. split; assumption.
    + simpl. rewrite Hlen. reflexivity.
    + exact Hpos.
Qed.

(** Two strokes on the linear device. *)
Lemma well_formed_linear_sequence_safe_witness :
  Forall safe_linear_event
    (invoke_all PowRef.pow_ref
       [Linear (linear_cmd 500 0.5); Linear (linear_cmd 300 1)]
       linear_device).2
  /\ length
       (invoke_all PowRef.pow_ref
          [Linear (linear_cmd 500 0.5); Linear (linear_cmd 300 1)]
          linear_device).2
     = 2%nat
  /\ exists l' : Q,
       _linearPosition
         (invoke_all PowRef.pow_ref
            [Linear (linear_cmd 500 0.5); Linear (linear_cmd 300 1)]
            linear_device).1 = Fin l'.
Proof.
  apply (well_formed_linear_sequence_safe PowRef.pow_ref
           PowRefFacts.pow_ref_nonneg
           [Linear (linear_cmd 500 0.5); Linear (linear_cmd 300 1)]
           linear_device 0%Q).
  - reflexivity.
  - constructor.
    + exists 500%Q, 0.5%Q. split; [reflexivity |].
      split; [reflexivity | split; vm_compute; discriminate].
    + constructor; [| constructor].
      exists 300%Q, 1%Q. split; [reflexivity |].
      split; [reflexivity | split; vm_compute; discriminate].
Defined.

(** ** More on ButtplugBrowserClient *)

Module ClientFacts.
Import ClientCalls.

Section Facts.
Context {ButtplugServer Message : Type}.
Variable new_ButtplugServer : ButtplugServer.
Variable SendMessage :
  ButtplugServer -> Message -> ButtplugServer * Promise Message.

Lemma emit_count_app (event : string) (xs ys : list (Effect Message)) :
  emit_count event (xs ++ ys) = (emit_count event xs + emit_count event ys)%nat.
Proof.
  induction xs as [| x xs IH]; [reflexivity |].
  destruct x; simpl; try exact IH.
  destruct (String.eqb event0 event); simpl; rewrite IH; reflexivity.
Qed.

(** One call: consistency is kept, and a "close" is paid for by a
    connection that ends. *)
Lemma call_step (op : Op Message) (this : ButtplugBrowserClient.t ButtplugServer) :
  consistent this ->
  consistent (after (call new_ButtplugServer SendMessage op this))
  /\ (emit_count "close" (emitted (call new_ButtplugServer SendMessage op this))
      + (if _connected (after (call new_ButtplugServer SendMessage op this))
         then 1 else 0)
      <= connect_count [op] + (if _connected this then 1 else 0))%nat.
Proof.
  intros Hc. destruct this as [connected server].
  unfold consistent in Hc. simpl in Hc.
  destruct op as [aUrl | | aMsg | aMsg]; cbn [call].
  - split; [reflexivity |]. destruct connected; simpl; lia.
  - destruct connected; (split; [first [reflexivity | exact Hc] |]);
      simpl; lia.
  - destruct connected.
    + destruct server as [server |]; [| discriminate Hc].
      unfold Send, bind, get, emit, modify, throw. cbn.
      destruct (SendMessage server aMsg) as [server' [r | e]]; cbn;
        (split; [reflexivity | lia]).
    + split; [exact Hc | simpl; lia].
  - split; [exact Hc |]. destruct connected; simpl; lia.
Qed.

Lemma run_invariant (ops : list (Op Message))
    (this : ButtplugBrowserClient.t ButtplugServer) :
  consistent this ->
  consistent (run new_ButtplugServer SendMessage ops this).1.1
  /\ (emit_count "close" (run new_ButtplugServer SendMessage ops this).2
      + (if _connected (run new_ButtplugServer SendMessage ops this).1.1
         then 1 else 0)
      <= connect_count ops + (if _connected this then 1 else 0))%nat
  /\ length (run new_ButtplugServer SendMessage ops this).1.2 = length ops.
Proof.
  revert this. induction ops as [| op ops IH]; intros this Hc.
  - split; [exact Hc |]. split; [simpl; lia | reflexivity].
  - destruct (call_step op this Hc) as [Hc1 Hn1].
    destruct (IH _ Hc1) as (Hc2 & Hn2 & Hl2).
    cbn [run fst snd]. split; [exact Hc2 |]. split.
    + rewrite emit_count_app.
      assert (Hcc : connect_count (op :: ops)
                    = (connect_count [op] + connect_count ops)%nat)
        by (destruct op; reflexivity).
      rewrite Hcc. lia.
    + simpl. rewrite Hl2. reflexivity.
Qed.
End Facts.
End ClientFacts.

Import ClientCalls.

(** X12. [Connect] starts afresh: whatever the client held before,
    connected or not, a [Send] right after [Connect] hands the message to
    the new server; the client stays connected to the server as the call
    left it; the server's answer is parsed when it resolves, and when it
    rejects, [Send] rejects with the same error and parses nothing. *)
Theorem Send_after_Connect {ButtplugServer Message : Type}
    (new_ButtplugServer : ButtplugServer)
    (SendMessage : ButtplugServer -> Message -> ButtplugServer * Promise Message)
    (aUrl : string) (aMsg : Message)
    (this : ButtplugBrowserClient.t ButtplugServer) :
  Send SendMessage aMsg
    (after (Connect (Message := Message) new_ButtplugServer aUrl this)) =
  match (SendMessage new_ButtplugServer aMsg).2 with
  | Resolved returnMsg =>
      (Resolved tt,
       {| _connected := true;
          _server := Some (SendMessage new_ButtplugServer aMsg).1 |},
       [CallSendMessage aMsg; CallParseMessages [returnMsg]])
  | Rejected e =>
      (Rejected e,
       {| _connected := true;
          _server := Some (SendMessage new_ButtplugServer aMsg).1 |},
       [CallSendMessage aMsg])
  end.
Proof.
  unfold Send, Connect, bind, get, emit, modify, throw, ret, after. cbn.
  destruct (SendMessage new_ButtplugServer aMsg) as [server' [r | e]];
    reflexivity.
Qed.

(** X13. After [Disconnect], from any state of the client, [Send] is
    rejected with "ButtplugClient not connected" and reaches no server. *)
Theorem Send_after_Disconnect {ButtplugServer Message : Type}
    (SendMessage : ButtplugServer -> Message -> ButtplugServer * Promise Message)
    (aMsg : Message) (this : ButtplugBrowserClient.t ButtplugServer) :
  Send SendMessage aMsg (after (Disconnect (Message := Message) this)) =
  (Rejected (JsError "ButtplugClient not connected"),
   after (Disconnect (Message := Message) this), []).
Proof.
  destruct this as [[|] server]; reflexivity.
Qed.

(** X14. Over any sequence of calls on a freshly constructed client, with
    any server: [_server] holds a server exactly when [_connected] is set,
    and the "close" events, plus one if the client is still connected,
    never outnumber the calls of [Connect]. *)
Theorem client_run_invariant {ButtplugServer Message : Type}
    (new_ButtplugServer : ButtplugServer)
    (SendMessage : ButtplugServer -> Message -> ButtplugServer * Promise Message)
    (ops : list (Op Message)) :
  consistent (run new_ButtplugServer SendMessage ops constructor).1.1
  /\ (emit_count "close" (run new_ButtplugServer SendMessage ops constructor).2
      + (if _connected (run new_ButtplugServer SendMessage ops constructor).1.1
         then 1 else 0)
      <= connect_count ops)%nat.
Proof.
  destruct (ClientFacts.run_invariant new_ButtplugServer SendMessage ops
              constructor eq_refl) as (Hc & Hn & _).
  split; [exact Hc |].
  simpl in Hn. lia.
Qed.
